(** * Option selectors, button groups and page navigation of streamlit

    A shallow embedding of

    - [lib/streamlit/elements/widgets/options_selector/options_selector_utils.py]
    - [lib/streamlit/elements/widgets/options_selector/button_group.py]
    - [lib/streamlit/commands/pages.py]

    The Python values the functions inspect dynamically are an inductive
    universe; raising is a result type; the objects a function mutates
    (the widget message, the element queue, the script context) are passed
    and returned explicitly.  The collaborators that live in other modules
    of the framework are variables of the sections that use them. *)

From Stdlib Require Import ZArith List String Ascii Bool Lia.
From Stdlib Require Import DecimalString.
Import ListNotations.

Local Open Scope string_scope.
Local Open Scope Z_scope.

(** ** Exceptions and fallible computations *)

Module Py.

(** The exception classes the modelled code can raise.  Exceptions of the
    interpreter carry their class only; [StreamlitAPIException] carries the
    message the source builds. *)
Inductive exn : Type :=
| StreamlitAPIException (msg : string)
| TypeError
| ValueError
| IndexError
| KeyError
| AssertionError
| OtherException (cls msg : string).

Inductive result (A : Type) : Type :=
| Ok (a : A)
| Raise (e : exn).

Arguments Ok {A} a.
Arguments Raise {A} e.

Definition bind {A B : Type} (c : result A) (k : A -> result B) : result B :=
  match c with
  | Ok a => k a
  | Raise e => Raise e
  end.

Notation "x <- c ;; k" := (bind c (fun x => k))
  (at level 61, c at next level, right associativity).
Notation "c ;;; k" := (bind c (fun _ => k))
  (at level 61, right associativity).

(** A comprehension [[f x for x in xs]]: elements are evaluated in order and
    the first exception escapes. *)
Fixpoint mapM {A B : Type} (f : A -> result B) (xs : list A) : result (list B) :=
  match xs with
  | [] => Ok []
  | x :: xs' => y <- f x ;; ys <- mapM f xs' ;; Ok (y :: ys)
  end.

(** A loop [for x in xs: f x] run for its exceptions only. *)
Fixpoint forM_ {A : Type} (f : A -> result unit) (xs : list A) : result unit :=
  match xs with
  | [] => Ok tt
  | x :: xs' => f x ;;; forM_ f xs'
  end.

(** ** Values *)

(** The builtin values the option selectors are exercised with.  A set is
    kept as the list of its elements in iteration order.  A string is a
    sequence of bytes, so its length, its items and its [repr] are those of
    Python for ASCII text. *)
#[warnings="-register-all"]
Inductive pyobj : Type :=
| VNone
| VBool (b : bool)
| VInt (n : Z)
| VStr (s : string)
| VList (xs : list pyobj)
| VTuple (xs : list pyobj)
| VSet (xs : list pyobj).

Section ListEq.
Context {A : Type} (eqb : A -> A -> bool).

Fixpoint list_eqb (xs ys : list A) : bool :=
  match xs, ys with
  | [], [] => true
  | x :: xs', y :: ys' => eqb x y && list_eqb xs' ys'
  | _, _ => false
  end.
End ListEq.

Definition Z_of_bool (b : bool) : Z := if b then 1 else 0.

(** Python's [a == b].  [bool] is a subclass of [int], so [True == 1];
    sequences compare element by element within one class; sets compare by
    mutual inclusion. *)
Fixpoint py_eq (a b : pyobj) {struct a} : bool :=
  match a, b with
  | VNone, VNone => true
  | VBool x, VBool y => Bool.eqb x y
  | VBool x, VInt n => Z_of_bool x =? n
  | VInt m, VBool y => m =? Z_of_bool y
  | VInt m, VInt n => m =? n
  | VStr s, VStr t => String.eqb s t
  | VList xs, VList ys => list_eqb py_eq xs ys
  | VTuple xs, VTuple ys => list_eqb py_eq xs ys
  | VSet xs, VSet ys =>
      forallb (fun x => existsb (fun y => py_eq x y) ys) xs
      && forallb (fun y => existsb (fun x => py_eq x y) xs) ys
  | _, _ => false
  end.

(** [x in opt] for a sequence [opt]: some item compares equal to [x]. *)
Definition py_in (x : pyobj) (opt : list pyobj) : bool :=
  existsb (fun o => py_eq o x) opt.

(** [opt.index(x)]: the first position whose item compares equal to [x];
    [ValueError] when there is none. *)
Fixpoint index_from (i : Z) (opt : list pyobj) (x : pyobj) : result Z :=
  match opt with
  | [] => Raise ValueError
  | o :: opt' => if py_eq o x then Ok i else index_from (i + 1) opt' x
  end.

Definition py_index (opt : list pyobj) (x : pyobj) : result Z :=
  index_from 0 opt x.

(** [opt[i]], with Python's negative indices; [IndexError] out of range. *)
Definition py_getitem (opt : list pyobj) (i : Z) : result pyobj :=
  let n := Z.of_nat (List.length opt) in
  let j := if i <? 0 then i + n else i in
  if (j <? 0) || (n <=? j) then Raise IndexError
  else match nth_error opt (Z.to_nat j) with
       | Some v => Ok v
       | None => Raise IndexError
       end.

(** [bool(v)], the truth value tested by [if], [and], [or]. *)
Definition truthy (v : pyobj) : bool :=
  match v with
  | VNone => false
  | VBool b => b
  | VInt n => negb (n =? 0)
  | VStr s => negb (String.eqb s "")
  | VList xs | VTuple xs | VSet xs =>
      match xs with [] => false | _ => true end
  end.

Fixpoint chars (s : string) : list pyobj :=
  match s with
  | EmptyString => []
  | String c s' => VStr (String c EmptyString) :: chars s'
  end.

(** [list(v)]: the items of an iterable; [TypeError] for [None], a [bool] or
    an [int], which are not iterable. *)
Definition py_list (v : pyobj) : result (list pyobj) :=
  match v with
  | VList xs | VTuple xs | VSet xs => Ok xs
  | VStr s => Ok (chars s)
  | VNone | VBool _ | VInt _ => Raise TypeError
  end.

(** [streamlit.type_util.is_iterable]: [iter(obj)] does not raise. *)
Definition is_iterable (v : pyobj) : bool :=
  match py_list v with
  | Ok _ => true
  | Raise _ => false
  end.

(** [len(v)] of a sized value. *)
Definition py_len (v : pyobj) : result Z :=
  match v with
  | VList xs | VTuple xs | VSet xs => Ok (Z.of_nat (List.length xs))
  | VStr s => Ok (Z.of_nat (String.length s))
  | VNone | VBool _ | VInt _ => Raise TypeError
  end.

(** The fully qualified type name, as [streamlit.type_util.is_type]
    compares it. *)
Definition fqn_type (v : pyobj) : string :=
  match v with
  | VNone => "builtins.NoneType"
  | VBool _ => "builtins.bool"
  | VInt _ => "builtins.int"
  | VStr _ => "builtins.str"
  | VList _ => "builtins.list"
  | VTuple _ => "builtins.tuple"
  | VSet _ => "builtins.set"
  end.

Definition is_type (v : pyobj) (fqn_type_pattern : string) : bool :=
  String.eqb (fqn_type v) fqn_type_pattern.

(** *** Printing *)

(** [str(n)] of an integer. *)
Definition str_of_Z (n : Z) : string := NilZero.string_of_int (Z.to_int n).

Fixpoint join (sep : string) (xs : list string) : string :=
  match xs with
  | [] => ""
  | [x] => x
  | x :: xs' => x ++ sep ++ join sep xs'
  end.

Fixpoint str_contains (c : ascii) (s : string) : bool :=
  match s with
  | EmptyString => false
  | String d s' => Ascii.eqb c d || str_contains c s'
  end.

Definition hex_digit (n : N) : ascii :=
  ascii_of_N (if (n <? 10)%N then 48 + n else 87 + n)%N.

(** One character of [repr] of a string delimited by [quote]. *)
Definition repr_char (quote c : ascii) : string :=
  let n := N_of_ascii c in
  if Ascii.eqb c quote || Ascii.eqb c "\"%char
  then String "\"%char (String c EmptyString)
  else if (n =? 9)%N then "\t"
  else if (n =? 10)%N then "\n"
  else if (n =? 13)%N then "\r"
  else if (n <? 32)%N || (n =? 127)%N
  then String "\"%char (String "x"%char
         (String (hex_digit (n / 16)) (String (hex_digit (n mod 16)) EmptyString)))
  else String c EmptyString.

Fixpoint repr_chars (quote : ascii) (s : string) : string :=
  match s with
  | EmptyString => EmptyString
  | String c s' => repr_char quote c ++ repr_chars quote s'
  end.

Definition squote : ascii := ascii_of_N 39.
Definition dquote : ascii := ascii_of_N 34.

(** [repr(s)] of a string: single quotes, unless the string holds a single
    quote and no double quote. *)
Definition repr_str (s : string) : string :=
  let quote :=
    if str_contains squote s && negb (str_contains dquote s)
    then dquote else squote in
  String quote (repr_chars quote s ++ String quote EmptyString).

Fixpoint py_repr (v : pyobj) : string :=
  match v with
  | VNone => "None"
  | VBool b => if b then "True" else "False"
  | VInt n => str_of_Z n
  | VStr s => repr_str s
  | VList xs => "[" ++ join ", " (map py_repr xs) ++ "]"
  | VTuple xs =>
      match xs with
      | [x] => "(" ++ py_repr x ++ ",)"
      | _ => "(" ++ join ", " (map py_repr xs) ++ ")"
      end
  | VSet xs =>
      match xs with
      | [] => "set()"
      | _ => "{" ++ join ", " (map py_repr xs) ++ "}"
      end
  end.

(** [str(v)], which is also what [f"{v}"] interpolates. *)
Definition py_str (v : pyobj) : string :=
  match v with
  | VStr s => s
  | _ => py_repr v
  end.

End Py.

(** ** Protocol messages *)

Module ButtonGroupProto.

Inductive ClickMode : Type := SINGLE_SELECT | MULTI_SELECT.

Inductive SelectionVisualization : Type := ONLY_SELECTED | ALL_UP_TO_SELECTED.

(** [ButtonGroupProto.Option]. *)
Record Option : Type := {
  content : string;
  selected_content : string
}.

Record t : Type := {
  id : string;
  default : list Z;
  form_id : string;
  disabled : bool;
  click_mode : ClickMode;
  options : list Option;
  selection_visualization : SelectionVisualization;
  value : list Z;
  set_value : bool
}.

(** [ButtonGroupProto()]: every field at its protobuf default. *)
Definition empty : t := {|
  id := "";
  default := [];
  form_id := "";
  disabled := false;
  click_mode := SINGLE_SELECT;
  options := [];
  selection_visualization := ONLY_SELECTED;
  value := [];
  set_value := false
|}.

End ButtonGroupProto.

(** What [register_widget_and_enqueue] needs of its message, which is a
    [MultiSelectProto] or a [ButtonGroupProto]: the repeated field [value]
    and the flag [set_value]. *)
Class SelectorProto (P : Type) : Type := {
  proto_value : P -> list Z;
  proto_set_value : P -> bool;
  assign_value : list Z -> P -> P;
  assign_set_value : bool -> P -> P;
  value_assign_value : forall v p, proto_value (assign_value v p) = v;
  set_value_assign_value :
    forall v p, proto_set_value (assign_value v p) = proto_set_value p;
  value_assign_set_value :
    forall b p, proto_value (assign_set_value b p) = proto_value p;
  set_value_assign_set_value :
    forall b p, proto_set_value (assign_set_value b p) = b
}.

#[export] Instance ButtonGroupProto_SelectorProto : SelectorProto ButtonGroupProto.t.
Proof.
  refine {|
    proto_value := ButtonGroupProto.value;
    proto_set_value := ButtonGroupProto.set_value;
    assign_value := fun v p =>
      {| ButtonGroupProto.id := ButtonGroupProto.id p;
         ButtonGroupProto.default := ButtonGroupProto.default p;
         ButtonGroupProto.form_id := ButtonGroupProto.form_id p;
         ButtonGroupProto.disabled := ButtonGroupProto.disabled p;
         ButtonGroupProto.click_mode := ButtonGroupProto.click_mode p;
         ButtonGroupProto.options := ButtonGroupProto.options p;
         ButtonGroupProto.selection_visualization :=
           ButtonGroupProto.selection_visualization p;
         ButtonGroupProto.value := v;
         ButtonGroupProto.set_value := ButtonGroupProto.set_value p |};
    assign_set_value := fun b p =>
      {| ButtonGroupProto.id := ButtonGroupProto.id p;
         ButtonGroupProto.default := ButtonGroupProto.default p;
         ButtonGroupProto.form_id := ButtonGroupProto.form_id p;
         ButtonGroupProto.disabled := ButtonGroupProto.disabled p;
         ButtonGroupProto.click_mode := ButtonGroupProto.click_mode p;
         ButtonGroupProto.options := ButtonGroupProto.options p;
         ButtonGroupProto.selection_visualization :=
           ButtonGroupProto.selection_visualization p;
         ButtonGroupProto.value := ButtonGroupProto.value p;
         ButtonGroupProto.set_value := b |}
  |}; reflexivity.
Defined.

(** The result of [streamlit.runtime.state.register_widget]. *)
Module RegisterWidgetResult.
Record t : Type := {
  value : Py.pyobj;
  value_changed : bool
}.
End RegisterWidgetResult.

(** ** The rest of the framework *)

(** What a formatting function returns ([Any] in the source): the string of
    [_default_format_func], or the [ButtonGroupProto.Option] a button group
    is given. *)
Inductive formatted : Type :=
| FStr (s : string)
| FOption (o : ButtonGroupProto.Option).

(** What a function returns together with the final state of the objects it
    mutates: the message, the delta generator that received it and the
    script context. *)
Record Outcome (A P DG CTX : Type) : Type := {
  returned : A;
  message : P;
  generator : DG;
  context : option CTX
}.

Arguments returned {A P DG CTX} _.
Arguments message {A P DG CTX} _.
Arguments generator {A P DG CTX} _.
Arguments context {A P DG CTX} _.

Definition WidgetDeserializer : Type :=
  option (list Z) -> string -> Py.result Py.pyobj.

Definition WidgetSerializer : Type := Py.pyobj -> Py.result (list Z).

(** The functions the three modules import from the rest of the framework.
    None of them is defined in the modelled files, so the model is
    parametric in them; each may raise. *)
Class Framework : Type := {
  DeltaGenerator : Type;
  ScriptRunContext : Type;
  WidgetCallback : Type;
  WidgetArgs : Type;
  WidgetKwargs : Type;
  MappedOptions : Type;
  (* streamlit.elements.lib.policies *)
  check_fragment_path_policy : DeltaGenerator -> Py.result unit;
  check_cache_replay_rules : Py.result unit;
  check_callback_rules :
    DeltaGenerator -> option WidgetCallback -> Py.result unit;
  check_session_state_rules :
    Py.pyobj -> option string -> bool -> Py.result unit;
  (* streamlit.type_util *)
  ensure_indexable : Py.pyobj -> Py.result (list Py.pyobj);
  check_python_comparable : list Py.pyobj -> Py.result unit;
  to_key : option Py.pyobj -> option string;
  (* streamlit.elements.lib.utils *)
  maybe_coerce_enum :
    RegisterWidgetResult.t -> Py.pyobj -> list Py.pyobj
    -> Py.result RegisterWidgetResult.t;
  maybe_coerce_enum_sequence :
    RegisterWidgetResult.t -> Py.pyobj -> list Py.pyobj
    -> Py.result RegisterWidgetResult.t;
  (* streamlit.runtime.state *)
  register_widget :
    forall P : Type,
      string -> P -> option WidgetCallback -> option WidgetArgs
      -> option WidgetKwargs -> WidgetDeserializer -> WidgetSerializer
      -> option ScriptRunContext -> Py.result RegisterWidgetResult.t;
  compute_widget_id :
    string -> option string -> option string -> list formatted -> list Z
    -> bool -> ButtonGroupProto.SelectionVisualization -> option string
    -> string;
  save_for_app_testing :
    forall T : Type,
      ScriptRunContext -> string -> T -> Py.result ScriptRunContext;
  (* streamlit.runtime.scriptrunner, streamlit.delta_generator,
     streamlit.elements.form *)
  active_script_hash : ScriptRunContext -> string;
  _enqueue :
    forall P : Type,
      DeltaGenerator -> string -> P -> Py.result DeltaGenerator;
  current_form_id : DeltaGenerator -> string;
  (* streamlit.elements.widgets.options_selector.feedback_utils *)
  get_mapped_options : Py.pyobj -> Py.result (MappedOptions * Py.pyobj);
  create_format_func : MappedOptions -> Py.pyobj -> Py.result formatted;
  FeedbackSerde_deserialize : Py.pyobj -> WidgetDeserializer;
  FeedbackSerde_serialize : Py.pyobj -> WidgetSerializer;
  (* names button_group.py imports from options_selector_utils, which does
     not define them *)
  check_max_selections : Py.pyobj -> option Z -> Py.result unit;
  maybe_coerce :
    RegisterWidgetResult.t -> Py.pyobj -> list Py.pyobj
    -> Py.result RegisterWidgetResult.t
}.

(** ** options_selector_utils.py *)

Module OptionsSelectorUtils.
Import Py.

Definition nl : string := String (ascii_of_N 10) EmptyString.

Definition is_none (v : pyobj) : bool :=
  match v with VNone => true | _ => false end.

Definition isinstance_list (v : pyobj) : bool :=
  match v with VList _ => true | _ => false end.

Definition isinstance_tuple_or_set (v : pyobj) : bool :=
  match v with VTuple _ | VSet _ => true | _ => false end.

(** The message of the exception raised for a default that is no option. *)
Definition invalid_default_message (value : pyobj) : string :=
  "The default value '" ++ py_str value ++ "' is not part of the options. "
  ++ "Please make sure that every default values also exists in the options.".

(** Perform validation checks and return indices based on the default
    values. *)
Definition _check_and_convert_to_indices
    (opt : list pyobj) (default_values : pyobj) : result (option (list Z)) :=
  if is_none default_values && negb (py_in VNone opt) then Ok None
  else
    default_values <-
      (match default_values with
       | VList xs => Ok xs
       | _ =>
           if is_type default_values "numpy.ndarray"
              || is_type default_values "pandas.core.series.Series"
           then py_list default_values
           else if isinstance_tuple_or_set default_values
                   || (truthy default_values && negb (py_in default_values opt))
           then py_list default_values
           else Ok [default_values]
       end) ;;
    forM_ (fun value =>
             if negb (py_in value opt)
             then Raise (StreamlitAPIException (invalid_default_message value))
             else Ok tt)
          default_values ;;;
    indices <- mapM (fun value => py_index opt value) default_values ;;
    Ok (Some indices).

Module MultiSelectSerde.

Record t : Type := {
  options : list pyobj;
  default_value : list Z
}.

Definition serialize (self : t) (value : pyobj) : result (list Z) :=
  indices <- _check_and_convert_to_indices (options self) value ;;
  Ok (match indices with Some indices => indices | None => [] end).

Definition deserialize
    (self : t) (ui_value : option (list Z)) (widget_id : string)
    : result (list pyobj) :=
  let current_value :=
    match ui_value with Some ui_value => ui_value | None => default_value self end in
  mapM (fun i => py_getitem (options self) i) current_value.

End MultiSelectSerde.

Definition _get_over_max_options_message (current_selections max_selections : Z)
    : string :=
  let curr_selections_noun :=
    if current_selections =? 1 then "option" else "options" in
  let max_selections_noun :=
    if max_selections =? 1 then "option" else "options" in
  nl ++ "Multiselect has " ++ str_of_Z current_selections ++ " "
     ++ curr_selections_noun ++ " selected but `max_selections`"
  ++ nl ++ "is set to " ++ str_of_Z max_selections
     ++ ". This happened because you either gave too many options to `default`"
  ++ nl ++ "or you manipulated the widget's state through `st.session_state`. Note that"
  ++ nl ++ "the latter can happen before the line indicated in the traceback."
  ++ nl ++ "Please select at most " ++ str_of_Z max_selections ++ " "
     ++ max_selections_noun ++ "."
  ++ nl.

Definition _get_default_count (default : pyobj) : result Z :=
  if is_none default then Ok 0
  else if negb (is_iterable default) then Ok 1
  else py_len default.

Definition _default_format_func (option : pyobj) : formatted :=
  FStr (py_str option).

Section Registration.
Context `{F : Framework}.

Definition check_multiselect_policies
    (dg : DeltaGenerator) (key : option string)
    (on_change : option WidgetCallback) (default : pyobj) : result unit :=
  check_fragment_path_policy dg ;;;
  check_cache_replay_rules ;;;
  check_callback_rules dg on_change ;;;
  check_session_state_rules default key true.

Definition transform_options
    (options : pyobj) (default : pyobj)
    (format_func : option (pyobj -> result formatted))
    : result (list pyobj * list formatted * list Z) :=
  indexable_options <- ensure_indexable options ;;
  check_python_comparable indexable_options ;;;
  default_indices <- _check_and_convert_to_indices indexable_options default ;;
  let default_indices :=
    match default_indices with
    | Some default_indices => default_indices
    | None => []
    end in
  let format_func :=
    match format_func with
    | Some format_func => format_func
    | None => fun option => Ok (_default_format_func option)
    end in
  formatted_options <- mapM format_func indexable_options ;;
  Ok (indexable_options, formatted_options, default_indices).

Definition register_widget_and_enqueue
    {P : Type} `{SelectorProto P} {T : Type}
    (dg : DeltaGenerator) (widget_name : string) (proto : P)
    (widget_id : string) (options : pyobj) (indexable_options : list pyobj)
    (deserializer : WidgetDeserializer) (serializer : WidgetSerializer)
    (ctx : option ScriptRunContext)
    (on_change_handler : option WidgetCallback)
    (args : option WidgetArgs) (kwargs : option WidgetKwargs)
    (max_selections : option Z) (app_testing_value : T)
    : result (Outcome pyobj P DeltaGenerator ScriptRunContext) :=
  widget_state <-
    register_widget P widget_name proto on_change_handler args kwargs
      deserializer serializer ctx ;;
  default_count <- _get_default_count (RegisterWidgetResult.value widget_state) ;;
  (match max_selections with
   | Some max_selections =>
       if negb (max_selections =? 0) && (default_count >? max_selections)
       then Raise (StreamlitAPIException
                     (_get_over_max_options_message default_count max_selections))
       else Ok tt
   | None => Ok tt
   end) ;;;
  widget_state <-
    (if isinstance_list (RegisterWidgetResult.value widget_state)
     then maybe_coerce_enum_sequence widget_state options indexable_options
     else maybe_coerce_enum widget_state options indexable_options) ;;
  proto <-
    (if RegisterWidgetResult.value_changed widget_state
     then
       value <- serializer (RegisterWidgetResult.value widget_state) ;;
       Ok (assign_set_value true (assign_value value proto))
     else Ok proto) ;;
  ctx <-
    (match ctx with
     | Some ctx =>
         ctx <- save_for_app_testing T ctx widget_id app_testing_value ;;
         Ok (Some ctx)
     | None => Ok None
     end) ;;
  dg <- _enqueue P dg widget_name proto ;;
  Ok {| returned := RegisterWidgetResult.value widget_state;
        message := proto;
        generator := dg;
        context := ctx |}.

End Registration.

End OptionsSelectorUtils.

(** ** button_group.py *)

Module ButtonGroup.
Import Py OptionsSelectorUtils.

(** Modelled from the spec: the type alias [FeedbackOptions] of
    feedback_utils.py is not in the modelled files.  The docstring of
    [feedback] and the message it raises name its three literals, which is
    what [get_args(FeedbackOptions)] returns. *)
Definition FeedbackOptions_args : list pyobj :=
  [VStr "thumbs"; VStr "faces"; VStr "stars"].

(** [proto.options.append(formatted_option)]: a repeated message field takes
    messages of its own class only. *)
Definition options_append
    (options : list ButtonGroupProto.Option) (formatted_option : formatted)
    : result (list ButtonGroupProto.Option) :=
  match formatted_option with
  | FOption o => Ok (options ++ [o])%list
  | FStr _ => Raise TypeError
  end.

Fixpoint options_extend
    (options : list ButtonGroupProto.Option) (formatted_options : list formatted)
    : result (list ButtonGroupProto.Option) :=
  match formatted_options with
  | [] => Ok options
  | formatted_option :: rest =>
      options <- options_append options formatted_option ;;
      options_extend options rest
  end.

(** The integers a repeated [uint32] field holds. *)
Definition is_uint32 (n : Z) : bool := (0 <=? n) && (n <? 4294967296).

(** Modelled from the spec: ButtonGroup.proto, which declares the fields
    [default] and [value], is not in the modelled files; the spec's data
    model gives the message its default indices and its override as lists
    of indices, and the protocol declares both [repeated uint32].  The
    assignments [proto.default[:] = values] and [proto.value[:] = values]
    raise [ValueError] when one of the integers is outside that range, and
    store the list otherwise. *)
Definition assign_repeated_uint32 (values : list Z) : result (list Z) :=
  if forallb is_uint32 values then Ok values else Raise ValueError.

Definition _build_proto
    (widget_id : string) (formatted_options : list formatted)
    (default_values : list Z) (disabled : bool) (current_form_id : string)
    (click_mode : ButtonGroupProto.ClickMode)
    (selection_visualization : ButtonGroupProto.SelectionVisualization)
    : result ButtonGroupProto.t :=
  default_values <- assign_repeated_uint32 default_values ;;
  options <- options_extend [] formatted_options ;;
  Ok {| ButtonGroupProto.id := widget_id;
        ButtonGroupProto.default := default_values;
        ButtonGroupProto.form_id := current_form_id;
        ButtonGroupProto.disabled := disabled;
        ButtonGroupProto.click_mode := click_mode;
        ButtonGroupProto.options := options;
        ButtonGroupProto.selection_visualization := selection_visualization;
        ButtonGroupProto.value := [];
        ButtonGroupProto.set_value := false |}.

(** The message of the exception [feedback] raises for its [options]. *)
Definition invalid_feedback_options_message (options : pyobj) : string :=
  "The options argument to st.feedback must be one of "
  ++ "['thumbs', 'faces', 'stars']. "
  ++ "The argument passed was '" ++ py_str options ++ "'.".

(** The serde [_button_group] registers with: the caller's pair, or a
    [MultiSelectSerde] over the options when [serializer] or [deserializer]
    is [None]. *)
Definition select_serde
    (indexable_options : list pyobj) (default_values : list Z)
    (deserializer : option WidgetDeserializer)
    (serializer : option WidgetSerializer)
    : WidgetDeserializer * WidgetSerializer :=
  match serializer, deserializer with
  | Some serializer, Some deserializer => (deserializer, serializer)
  | _, _ =>
      let serde :=
        {| MultiSelectSerde.options := indexable_options;
           MultiSelectSerde.default_value := default_values |} in
      ((fun ui_value widget_id =>
          value <- MultiSelectSerde.deserialize serde ui_value widget_id ;;
          Ok (VList value)),
       MultiSelectSerde.serialize serde)
  end.

Section Widgets.
Context `{F : Framework}.

Definition _button_group
    (self : DeltaGenerator) (options : pyobj) (key : option pyobj)
    (default : pyobj) (click_mode : ButtonGroupProto.ClickMode)
    (disabled : bool) (format_func : option (pyobj -> result formatted))
    (deserializer : option WidgetDeserializer)
    (serializer : option WidgetSerializer)
    (on_change : option WidgetCallback)
    (args : option WidgetArgs) (kwargs : option WidgetKwargs)
    (selection_visualization : ButtonGroupProto.SelectionVisualization)
    (ctx : option ScriptRunContext)
    : result (Outcome RegisterWidgetResult.t ButtonGroupProto.t
                DeltaGenerator ScriptRunContext) :=
  let key := to_key key in
  check_multiselect_policies self key on_change default ;;;
  let widget_name := "button_group" in
  transformed <- transform_options options default format_func ;;
  let '(indexable_options, formatted_options, default_values) := transformed in
  let widget_id :=
    compute_widget_id widget_name key key formatted_options default_values
      disabled selection_visualization
      (match ctx with Some ctx => Some (active_script_hash ctx) | None => None end) in
  proto <-
    _build_proto widget_id formatted_options default_values disabled
      (current_form_id self) click_mode selection_visualization ;;
  let '(deserializer, serializer) :=
    select_serde indexable_options default_values deserializer serializer in
  widget_state <-
    register_widget ButtonGroupProto.t "button_group" proto on_change args kwargs
      deserializer serializer ctx ;;
  check_max_selections (RegisterWidgetResult.value widget_state) None ;;;
  widget_state <- maybe_coerce widget_state options indexable_options ;;
  proto <-
    (if RegisterWidgetResult.value_changed widget_state
     then
       value <- serializer (RegisterWidgetResult.value widget_state) ;;
       value <- assign_repeated_uint32 value ;;
       Ok (assign_set_value true (assign_value value proto))
     else Ok proto) ;;
  ctx <-
    (match ctx with
     | Some ctx =>
         ctx <- save_for_app_testing _ ctx widget_id format_func ;;
         Ok (Some ctx)
     | None => Ok None
     end) ;;
  dg <- _enqueue ButtonGroupProto.t self widget_name proto ;;
  Ok {| returned := widget_state;
        message := proto;
        generator := dg;
        context := ctx |}.

(** [feedback] once its [options] have passed the check: everything after
    the first statement of the function. *)
Definition feedback_widget
    (self : DeltaGenerator) (options : pyobj) (key : option string)
    (disabled : bool) (on_change : option WidgetCallback)
    (args : option WidgetArgs) (kwargs : option WidgetKwargs)
    (ctx : option ScriptRunContext)
    : result (Outcome pyobj ButtonGroupProto.t DeltaGenerator ScriptRunContext) :=
  mapped <- get_mapped_options options ;;
  let '(transformed_options, options_indices) := mapped in
  let format_func := create_format_func transformed_options in
  let selection_visualization :=
    if py_eq options (VStr "stars")
    then ButtonGroupProto.ALL_UP_TO_SELECTED
    else ButtonGroupProto.ONLY_SELECTED in
  sentiment <-
    _button_group self options_indices
      (match key with Some key => Some (VStr key) | None => None end)
      VNone ButtonGroupProto.SINGLE_SELECT disabled (Some format_func)
      (Some (FeedbackSerde_deserialize options_indices))
      (Some (FeedbackSerde_serialize options_indices))
      on_change args kwargs selection_visualization ctx ;;
  Ok {| returned := RegisterWidgetResult.value (returned sentiment);
        message := message sentiment;
        generator := generator sentiment;
        context := context sentiment |}.

Definition feedback
    (self : DeltaGenerator) (options : pyobj) (key : option string)
    (disabled : bool) (on_change : option WidgetCallback)
    (args : option WidgetArgs) (kwargs : option WidgetKwargs)
    (ctx : option ScriptRunContext)
    : result (Outcome pyobj ButtonGroupProto.t DeltaGenerator ScriptRunContext) :=
  (if negb (isinstance_list options) && negb (py_in options FeedbackOptions_args)
   then Raise (StreamlitAPIException (invalid_feedback_options_message options))
   else Ok tt) ;;;
  feedback_widget self options key disabled on_change args kwargs ctx.

End Widgets.

End ButtonGroup.

(** ** pages.py *)

Module Pages.
Import Py.

(** [Page.page] is a resolved [Path] or a callable; either is kept with the
    string [str] gives for it, which is all the module uses. *)
Inductive page_source : Type :=
| PagePath (path : string)
| PageCallable (repr : string).

Definition str_page_source (p : page_source) : string :=
  match p with
  | PagePath path => path
  | PageCallable repr => repr
  end.

Record Page : Type := {
  page : page_source;
  title : option string;
  icon : option string;
  default : bool;
  key : option string
}.

(** [s or ""] for an optional string. *)
Definition or_empty (s : option string) : string :=
  match s with
  | Some s => s
  | None => ""
  end.

Record AppPage : Type := {
  page_script_hash : string;
  page_name : string;
  app_page_icon : string
}.

Record NavigationSection : Type := {
  header : string;
  app_pages : list AppPage
}.

(** A [ForwardMsg] carrying a navigation. *)
Record ForwardMsg : Type := {
  sections : list NavigationSection
}.

(** A Python [dict] with string keys: its items in insertion order. *)
Definition dict (V : Type) : Type := list (string * V).

(** [d[k]], [None] standing for [KeyError]. *)
Fixpoint dict_get {V : Type} (d : dict V) (k : string) : option V :=
  match d with
  | [] => None
  | (k', v) :: d' => if String.eqb k' k then Some v else dict_get d' k
  end.

(** [d[k] = v]: an existing key keeps its place and takes the new value, a
    new key goes last. *)
Fixpoint dict_set {V : Type} (d : dict V) (k : string) (v : V) : dict V :=
  match d with
  | [] => [(k, v)]
  | (k', v') :: d' =>
      if String.eqb k' k then (k', v) :: d' else (k', v') :: dict_set d' k v
  end.

(** [list(d.values())]. *)
Definition dict_values {V : Type} (d : dict V) : list V := map snd d.

(** What [navigation] reads and writes of the script run context. *)
Record ScriptRunContext : Type := {
  ctx_page_script_hash : string;
  ctx_pages : dict Page;
  ctx_enqueued : list ForwardMsg
}.

Inductive pages_arg : Type :=
| PagesList (pages : list Page)
| PagesDict (pages : dict (list Page)).

Inductive position_arg : Type := sidebar | hidden.

(** The state [navigation] acts on: the context and the standard output. *)
Record World : Type := {
  ctx : ScriptRunContext;
  stdout : list string
}.

Section Navigation.
(** [streamlit.util.calc_md5]. *)
Variable calc_md5 : string -> string.

Definition _script_hash (self : Page) : string :=
  let h := calc_md5 (str_page_source (page self)) in
  h.

Definition app_page_of (page : Page) : AppPage :=
  {| page_script_hash := _script_hash page;
     page_name := or_empty (title page);
     app_page_icon := or_empty (icon page) |}.

(** The pages of every section, in the order the two loops visit them.  A
    dict has each key once, so [pages[section]] is the list kept with
    [section]. *)
Definition all_pages (pages : dict (list Page)) : list Page :=
  flat_map snd pages.

Definition build_page_dict (pages : dict (list Page)) : dict Page :=
  fold_left (fun page_dict page => dict_set page_dict (_script_hash page) page)
            (all_pages pages) [].

Definition navigation
    (pages : pages_arg) (position : position_arg)
    (get_script_run_ctx : option ScriptRunContext) (out : list string)
    : result (Page * World) :=
  match get_script_run_ctx with
  | None => Raise AssertionError
  | Some ctx =>
      let pages : dict (list Page) :=
        match pages with
        | PagesList pages => [("", pages)]
        | PagesDict pages => pages
        end in
      let msg :=
        {| sections :=
             map (fun section =>
                    {| header := fst section;
                       app_pages := map app_page_of (snd section) |})
                 pages |} in
      let enqueued := (ctx_enqueued ctx ++ [msg])%list in
      let page_dict := build_page_dict pages in
      let ctx :=
        {| ctx_page_script_hash := ctx_page_script_hash ctx;
           ctx_pages := page_dict;
           ctx_enqueued := enqueued |} in
      match dict_get page_dict (ctx_page_script_hash ctx) with
      | Some page => Ok (page, {| ctx := ctx; stdout := out |})
      | None =>
          let out := (out ++ ["falling back to default page"])%list in
          match dict_values page_dict with
          | page :: _ => Ok (page, {| ctx := ctx; stdout := out |})
          | [] => Raise IndexError
          end
      end
  end.

End Navigation.

End Pages.

(** ** pages.py: the constructor of a page *)

Module PageInit.
Import Py Pages.

(** The [page] argument of [Page(...)]: a string, a [Path], or a callable
    with its [__name__] and the string [str] gives for it. *)
Inductive page_arg : Type :=
| OfStr (s : string)
| OfPath (path : string)
| OfCallable (name repr : string).

(** What [Page.__init__] reads of the script run context. *)
Record InitContext : Type := {
  main_script_path : string
}.

(** [a or b] for an optional string [a]: [b] when [a] is [None] or empty. *)
Definition or_else (a : option string) (b : string) : string :=
  match a with
  | Some a => if String.eqb a "" then b else a
  | None => b
  end.

Section Init.
(** [(Path(main_script_path).parent / page).resolve()], as a string: pathlib
    and the file system. *)
Variable resolve_beside : string -> string -> string.
(** [streamlit.source_util.page_icon_and_name]: the icon and the name read
    off a script path. *)
Variable page_icon_and_name : string -> string * string.

Definition Page_init
    (get_script_run_ctx : option InitContext) (page : page_arg)
    (title icon : option string) (default : bool) (key : option string)
    : result Page :=
  match get_script_run_ctx with
  | None => Raise AssertionError
  | Some ctx =>
      let main_path := main_script_path ctx in
      let page :=
        match page with
        | OfStr s => OfPath s
        | page => page
        end in
      let page :=
        match page with
        | OfPath path => OfPath (resolve_beside main_path path)
        | page => page
        end in
      let '(inferred_icon, inferred_name) :=
        match page with
        | OfPath path => page_icon_and_name path
        | OfCallable name _ => ("", name)
        | OfStr _ => ("", "")
        end in
      let name := or_else title inferred_name in
      if String.eqb name "" then Raise AssertionError
      else
        Ok {| Pages.page :=
                match page with
                | OfPath path | OfStr path => PagePath path
                | OfCallable _ repr => PageCallable repr
                end;
              Pages.title := Some (or_else title inferred_name);
              Pages.icon := Some (or_else icon inferred_icon);
              Pages.default := default;
              Pages.key := key |}
  end.

End Init.

End PageInit.

(** ** A small framework to run the model *)

Module Demo.
Import Py OptionsSelectorUtils.

Definition formatted_text (f : formatted) : string :=
  match f with
  | FStr s => s
  | FOption o =>
      ButtonGroupProto.content o ++ "/" ++ ButtonGroupProto.selected_content o
  end.

Definition none_or (s : option string) : string :=
  match s with Some s => s | None => "None" end.

(** An identity that writes its arguments out one after the other. *)
Definition written_id
    (element_type : string) (user_key key : option string)
    (options : list formatted) (default : list Z) (disabled : bool)
    (selection_visualization : ButtonGroupProto.SelectionVisualization)
    (page : option string) : string :=
  "$$ID-" ++ element_type ++ "-" ++ none_or user_key ++ "-" ++ none_or key
  ++ "-" ++ join "," (map formatted_text options)
  ++ "-" ++ join "," (map str_of_Z default)
  ++ "-" ++ (if disabled then "True" else "False")
  ++ "-" ++ match selection_visualization with
            | ButtonGroupProto.ONLY_SELECTED => "0"
            | ButtonGroupProto.ALL_UP_TO_SELECTED => "1"
            end
  ++ "-" ++ none_or page.

(** The cardinality check of [register_widget_and_enqueue], as a function. *)
Definition count_check (value : pyobj) (max_selections : option Z) : result unit :=
  default_count <- _get_default_count value ;;
  match max_selections with
  | Some max_selections =>
      if negb (max_selections =? 0) && (default_count >? max_selections)
      then Raise (StreamlitAPIException
                    (_get_over_max_options_message default_count max_selections))
      else Ok tt
  | None => Ok tt
  end.

Definition icons (options : pyobj) : list string * pyobj :=
  if py_eq options (VStr "thumbs")
  then (["thumb_down"; "thumb_up"], VList [VInt 0; VInt 1])
  else if py_eq options (VStr "faces") || py_eq options (VStr "stars")
  then (["1"; "2"; "3"; "4"; "5"],
        VList [VInt 0; VInt 1; VInt 2; VInt 3; VInt 4])
  else ([], VList []).

Definition icon_of (transformed_options : list string) (option : pyobj)
    : result formatted :=
  match option with
  | VInt i =>
      match nth_error transformed_options (Z.to_nat i) with
      | Some icon =>
          Ok (FOption {| ButtonGroupProto.content := icon;
                         ButtonGroupProto.selected_content := "" |})
      | None => Raise IndexError
      end
  | _ => Raise TypeError
  end.

(** The framework with every policy passing, a state register that answers
    [registered] and a coercion [coerce]; the delta generator is the list
    of the element names it received and the context is the page hash with
    the widget identities saved for testing. *)
Definition framework
    (registered : WidgetDeserializer -> result RegisterWidgetResult.t)
    (coerce : RegisterWidgetResult.t -> list pyobj
              -> result RegisterWidgetResult.t)
    : Framework := {|
  DeltaGenerator := list string;
  ScriptRunContext := string * list string;
  WidgetCallback := unit;
  WidgetArgs := unit;
  WidgetKwargs := unit;
  MappedOptions := list string;
  check_fragment_path_policy := fun _ => Ok tt;
  check_cache_replay_rules := Ok tt;
  check_callback_rules := fun _ _ => Ok tt;
  check_session_state_rules := fun _ _ _ => Ok tt;
  ensure_indexable := py_list;
  check_python_comparable := fun _ => Ok tt;
  to_key := option_map py_str;
  maybe_coerce_enum := fun widget_state _ indexable_options =>
    coerce widget_state indexable_options;
  maybe_coerce_enum_sequence := fun widget_state _ indexable_options =>
    coerce widget_state indexable_options;
  register_widget := fun _ _ _ _ _ _ deserializer _ _ => registered deserializer;
  compute_widget_id := written_id;
  save_for_app_testing := fun _ ctx widget_id _ =>
    Ok (fst ctx, (snd ctx ++ [widget_id])%list);
  active_script_hash := fst;
  _enqueue := fun _ dg widget_name _ => Ok (dg ++ [widget_name])%list;
  current_form_id := fun _ => "";
  get_mapped_options := fun options => Ok (icons options);
  create_format_func := icon_of;
  FeedbackSerde_deserialize := fun _ ui_value _ =>
    match ui_value with
    | Some [i] => Ok (VInt i)
    | _ => Ok VNone
    end;
  FeedbackSerde_serialize := fun _ value =>
    match value with
    | VInt i => Ok [i]
    | _ => Ok []
    end;
  check_max_selections := count_check;
  maybe_coerce := fun widget_state _ indexable_options =>
    coerce widget_state indexable_options
|}.

(** The same framework with an identity function [identity] and a selection
    check [check] of the caller's choice. *)
Definition framework_with
    (identity : string -> option string -> option string -> list formatted
                -> list Z -> bool -> ButtonGroupProto.SelectionVisualization
                -> option string -> string)
    (check : pyobj -> option Z -> result unit)
    (registered : WidgetDeserializer -> result RegisterWidgetResult.t)
    (coerce : RegisterWidgetResult.t -> list pyobj
              -> result RegisterWidgetResult.t)
    : Framework := {|
  DeltaGenerator := list string;
  ScriptRunContext := string * list string;
  WidgetCallback := unit;
  WidgetArgs := unit;
  WidgetKwargs := unit;
  MappedOptions := list string;
  check_fragment_path_policy := fun _ => Ok tt;
  check_cache_replay_rules := Ok tt;
  check_callback_rules := fun _ _ => Ok tt;
  check_session_state_rules := fun _ _ _ => Ok tt;
  ensure_indexable := py_list;
  check_python_comparable := fun _ => Ok tt;
  to_key := option_map py_str;
  maybe_coerce_enum := fun widget_state _ indexable_options =>
    coerce widget_state indexable_options;
  maybe_coerce_enum_sequence := fun widget_state _ indexable_options =>
    coerce widget_state indexable_options;
  register_widget := fun _ _ _ _ _ _ deserializer _ _ => registered deserializer;
  compute_widget_id := identity;
  save_for_app_testing := fun _ ctx widget_id _ =>
    Ok (fst ctx, (snd ctx ++ [widget_id])%list);
  active_script_hash := fst;
  _enqueue := fun _ dg widget_name _ => Ok (dg ++ [widget_name])%list;
  current_form_id := fun _ => "";
  get_mapped_options := fun options => Ok (icons options);
  create_format_func := icon_of;
  FeedbackSerde_deserialize := fun _ ui_value _ =>
    match ui_value with
    | Some [i] => Ok (VInt i)
    | _ => Ok VNone
    end;
  FeedbackSerde_serialize := fun _ value =>
    match value with
    | VInt i => Ok [i]
    | _ => Ok []
    end;
  check_max_selections := check;
  maybe_coerce := fun widget_state _ indexable_options =>
    coerce widget_state indexable_options
|}.

(** The state register on a first run: the widget's default, unchanged. *)
Definition first_run (deserializer : WidgetDeserializer)
    : result RegisterWidgetResult.t :=
  value <- deserializer None "" ;;
  Ok {| RegisterWidgetResult.value := value;
        RegisterWidgetResult.value_changed := false |}.

(** The state register after a session-state write of [value]. *)
Definition session_write (value : pyobj) (deserializer : WidgetDeserializer)
    : result RegisterWidgetResult.t :=
  Ok {| RegisterWidgetResult.value := value;
        RegisterWidgetResult.value_changed := true |}.

Definition no_coercion
    (widget_state : RegisterWidgetResult.t) (indexable_options : list pyobj)
    : result RegisterWidgetResult.t :=
  Ok widget_state.

(** Two probes that tell which of the check and the coercion a call reaches
    first: a coercion and a check that raise as soon as they are called.
    The functions they stand for are outside the modelled files and may
    raise; a coercion that never raises and keeps the number of values
    does not show in a result whether it ran before the count or after
    it. *)
Definition raising_coercion
    (widget_state : RegisterWidgetResult.t) (indexable_options : list pyobj)
    : result RegisterWidgetResult.t :=
  Raise (OtherException "RuntimeError" "the coercion was called").

Definition raising_check (value : pyobj) (max_selections : option Z)
    : result unit :=
  Raise (OtherException "RuntimeError" "the check was called").

(** A coercion that resolves stale options by dropping the values that are
    no option any more. *)
Definition drop_stale
    (widget_state : RegisterWidgetResult.t) (indexable_options : list pyobj)
    : result RegisterWidgetResult.t :=
  Ok {| RegisterWidgetResult.value :=
          match RegisterWidgetResult.value widget_state with
          | VList xs => VList (filter (fun x => py_in x indexable_options) xs)
          | value => value
          end;
        RegisterWidgetResult.value_changed :=
          RegisterWidgetResult.value_changed widget_state |}.

(** A multi-select over the options 1 to 5 with the default [1, 2, 3],
    registered through [register_widget_and_enqueue]. *)
Definition one_to_five : list pyobj := [VInt 1; VInt 2; VInt 3; VInt 4; VInt 5].

Definition multiselect
    (F : Framework) (dg : DeltaGenerator) (ctx : option ScriptRunContext)
    (max_selections : option Z)
    : result (Outcome pyobj ButtonGroupProto.t DeltaGenerator ScriptRunContext) :=
  let serde := ButtonGroup.select_serde one_to_five [0; 1; 2] None None in
  register_widget_and_enqueue dg "multiselect" ButtonGroupProto.empty "w"
    (VList one_to_five) one_to_five (fst serde) (snd serde) ctx None None None
    max_selections tt.

(** A multi-select over the options 1 to 3 whose stored value [1, 2, 9] was
    written through the session state. *)
Definition one_to_three : list pyobj := [VInt 1; VInt 2; VInt 3].

Definition stale_state : RegisterWidgetResult.t :=
  {| RegisterWidgetResult.value := VList [VInt 1; VInt 2; VInt 9];
     RegisterWidgetResult.value_changed := true |}.

Definition stale_multiselect (max_selections : option Z)
    : result (Outcome pyobj ButtonGroupProto.t (list string)
                (string * list string)) :=
  let serde := ButtonGroup.select_serde one_to_three [] None None in
  register_widget_and_enqueue
    (F := framework (session_write (VList [VInt 1; VInt 2; VInt 9])) drop_stale)
    [] "multiselect" ButtonGroupProto.empty "w"
    (VList one_to_three) one_to_three (fst serde) (snd serde) None None None
    None max_selections tt.

(** The same multi-select in a framework whose coercion is the probe. *)
Definition probed_multiselect (max_selections : option Z)
    : result (Outcome pyobj ButtonGroupProto.t (list string)
                (string * list string)) :=
  let serde := ButtonGroup.select_serde one_to_three [] None None in
  register_widget_and_enqueue
    (F := framework (session_write (VList [VInt 1; VInt 2; VInt 9]))
            raising_coercion)
    [] "multiselect" ButtonGroupProto.empty "w"
    (VList one_to_three) one_to_three (fst serde) (snd serde) None None None
    None max_selections tt.

(** A button group over [options], registered through [_button_group] with
    no key, no default and no serde of its own. *)
Definition as_option (option : pyobj) : result formatted :=
  Ok (FOption {| ButtonGroupProto.content := py_str option;
                 ButtonGroupProto.selected_content := "" |}).

Definition button_group
    (F : Framework) (dg : DeltaGenerator) (ctx : option ScriptRunContext)
    (options : pyobj) (default : pyobj)
    (click_mode : ButtonGroupProto.ClickMode)
    : result (Outcome RegisterWidgetResult.t ButtonGroupProto.t
                DeltaGenerator ScriptRunContext) :=
  ButtonGroup._button_group dg options None default click_mode false
    (Some as_option) None None None None None ButtonGroupProto.ONLY_SELECTED
    ctx.

(** Two pages, and a script context whose current page is a third one. *)
Definition home : Pages.Page :=
  {| Pages.page := Pages.PagePath "/app/home.py";
     Pages.title := Some "home";
     Pages.icon := None;
     Pages.default := true;
     Pages.key := None |}.

Definition about : Pages.Page :=
  {| Pages.page := Pages.PagePath "/app/about.py";
     Pages.title := Some "about";
     Pages.icon := None;
     Pages.default := false;
     Pages.key := None |}.

Definition on_settings : Pages.ScriptRunContext :=
  {| Pages.ctx_page_script_hash := "/app/settings.py";
     Pages.ctx_pages := [];
     Pages.ctx_enqueued := [] |}.

End Demo.

(** ** Vocabulary of the statements *)

Module Spec.
Import Py.

(** [i] is the first position of [opt] whose item compares equal to [x]. *)
Definition first_position (opt : list pyobj) (x : pyobj) (i : Z) : Prop :=
  exists n : nat,
    i = Z.of_nat n
    /\ (exists o, nth_error opt n = Some o /\ py_eq o x = true)
    /\ (forall j o, (j < n)%nat -> nth_error opt j = Some o -> py_eq o x = false).

(** The text [s] occurs in the message [msg]. *)
Definition mentions (msg s : string) : Prop :=
  exists before after : string, msg = before ++ s ++ after.













End Spec.

Module Terms.
Import Py.

(** [i] is a position of [opt], counted from 0. *)
Definition position_of (opt : list pyobj) (i : Z) : Prop :=
  0 <= i < Z.of_nat (List.length opt).

(** [i] is an index [opt[i]] accepts: a position, or a negative index
    counted from the end. *)
Definition index_of (opt : list pyobj) (i : Z) : Prop :=
  - Z.of_nat (List.length opt) <= i < Z.of_nat (List.length opt).

(** A value that is no container: [None], a [bool], an [int] or a [str]. *)
Definition is_scalar (v : pyobj) : bool :=
  match v with
  | VNone | VBool _ | VInt _ | VStr _ => true
  | VList _ | VTuple _ | VSet _ => false
  end.

(** No two options at different positions compare equal. *)
Definition distinct_options (opt : list pyobj) : Prop :=
  forall (i j : nat) (a b : pyobj),
    nth_error opt i = Some a -> nth_error opt j = Some b ->
    py_eq a b = true -> i = j.

End Terms.

(** * Properties *)

(** ** The serde of a multi-select *)

Module SerdeProperties.
Import Py OptionsSelectorUtils Spec.

Lemma index_from_first (opt : list pyobj) (x : pyobj) :
  py_in x opt = true ->
  forall k : Z,
    exists n : nat,
      index_from k opt x = Ok (k + Z.of_nat n)
      /\ (exists o, nth_error opt n = Some o /\ py_eq o x = true)
      /\ (forall j o, (j < n)%nat -> nth_error opt j = Some o -> py_eq o x = false).
Proof.
  induction opt as [|o opt IH]; simpl; intros Hin k.
  - discriminate.
  - destruct (py_eq o x) eqn:Heq.
    + exists 0%nat. rewrite Z.add_0_r. repeat split.
      * exists o. now split.
      * intros j o' Hj. lia.
    + simpl in Hin. destruct (IH Hin (k + 1)) as (n & Hidx & Hhit & Hfirst).
      exists (S n). repeat split.
      * rewrite Hidx. f_equal. lia.
      * exact Hhit.
      * intros [|j] o' Hj Hnth; simpl in Hnth.
        -- now inversion Hnth; subst.
        -- apply (Hfirst j); [lia | exact Hnth].
Qed.

Lemma py_index_first (opt : list pyobj) (x : pyobj) :
  py_in x opt = true ->
  exists i, py_index opt x = Ok i /\ first_position opt x i.
Proof.
  intros Hin. destruct (index_from_first opt x Hin 0) as (n & Hidx & Hhit & Hfirst).
  exists (Z.of_nat n). split; [exact Hidx |].
  exists n. auto.
Qed.

Lemma membership_loop_passes (opt v : list pyobj) :
  Forall (fun x => py_in x opt = true) v ->
  forM_ (fun value =>
           if negb (py_in value opt)
           then Raise (StreamlitAPIException (invalid_default_message value))
           else Ok tt) v = Ok tt.
Proof.
  induction 1 as [|x v Hx _ IH]; simpl; [reflexivity |].
  rewrite Hx. simpl. exact IH.
Qed.

Lemma index_comprehension (opt v : list pyobj) :
  Forall (fun x => py_in x opt = true) v ->
  exists indices,
    mapM (fun value => py_index opt value) v = Ok indices
    /\ Forall2 (first_position opt) v indices.
Proof.
  induction 1 as [|x v Hx _ (indices & Hmap & Hall)]; simpl.
  - exists []. split; [reflexivity | constructor].
  - destruct (py_index_first opt x Hx) as (i & Hi & Hpos).
    exists (i :: indices). rewrite Hi. simpl. rewrite Hmap. simpl.
    split; [reflexivity | now constructor].
Qed.

Lemma convert_list (opt v : list pyobj) :
  Forall (fun x => py_in x opt = true) v ->
  exists indices,
    _check_and_convert_to_indices opt (VList v) = Ok (Some indices)
    /\ Forall2 (first_position opt) v indices.
Proof.
  intros Hv. destruct (index_comprehension opt v Hv) as (indices & Hmap & Hall).
  exists indices. split; [| exact Hall].
  unfold _check_and_convert_to_indices. simpl.
  rewrite (membership_loop_passes opt v Hv). simpl.
  rewrite Hmap. reflexivity.
Qed.

Lemma getitem_first_position (opt : list pyobj) (x : pyobj) (i : Z) :
  first_position opt x i ->
  exists o, py_getitem opt i = Ok o /\ py_eq o x = true.
Proof.
  intros (n & -> & (o & Hnth & Heq) & _). exists o. split; [| exact Heq].
  assert (Hlt : (n < List.length opt)%nat)
    by (apply nth_error_Some; congruence).
  assert (H0 : (Z.of_nat n <? 0) = false) by (apply Z.ltb_ge; lia).
  assert (H1 : (Z.of_nat (List.length opt) <=? Z.of_nat n) = false)
    by (apply Z.leb_gt; lia).
  unfold py_getitem. cbv zeta. rewrite H0. cbv iota. rewrite H0, H1. simpl.
  rewrite Nat2Z.id, Hnth. reflexivity.
Qed.

Lemma getitem_comprehension (opt v : list pyobj) (indices : list Z) :
  Forall2 (first_position opt) v indices ->
  exists r,
    mapM (fun i => py_getitem opt i) indices = Ok r
    /\ list_eqb py_eq r v = true.
Proof.
  induction 1 as [|x i v indices Hpos _ (r & Hmap & Heq)]; simpl.
  - exists []. now split.
  - destruct (getitem_first_position opt x i Hpos) as (o & Hget & Hox).
    exists (o :: r). rewrite Hget. simpl. rewrite Hmap. simpl.
    rewrite Hox, Heq. now split.
Qed.

(** C1, as the code has it: for a selection [v] drawn from the options,
    [MultiSelectSerde.serialize] returns one index per selected value, in the
    order of the selection; the k-th index is the first position of the
    k-th selected value in the options. *)
Theorem serialize_follows_selection_order
    (opt : list pyobj) (default_value : list Z) (v : list pyobj) :
  Forall (fun x => py_in x opt = true) v ->
  exists indices,
    MultiSelectSerde.serialize
      {| MultiSelectSerde.options := opt;
         MultiSelectSerde.default_value := default_value |} (VList v)
    = Ok indices
    /\ Forall2 (first_position opt) v indices.
Proof.
  intros Hv. destruct (convert_list opt v Hv) as (indices & Hconv & Hall).
  exists indices. split; [| exact Hall].
  unfold MultiSelectSerde.serialize. simpl. rewrite Hconv. reflexivity.
Qed.

Lemma serialize_follows_selection_order_witness :
  exists indices,
    MultiSelectSerde.serialize
      {| MultiSelectSerde.options := [VStr "a"; VStr "b"; VStr "c"];
         MultiSelectSerde.default_value := [] |}
      (VList [VStr "c"; VStr "a"])
    = Ok indices
    /\ Forall2 (first_position [VStr "a"; VStr "b"; VStr "c"])
               [VStr "c"; VStr "a"] indices.
Proof.
  apply (serialize_follows_selection_order
           [VStr "a"; VStr "b"; VStr "c"] [] [VStr "c"; VStr "a"]).
  repeat constructor.
Defined.

(** C1, as the claim has it, fails: with options [a, b, c] and the selection
    [c, a] the indices come out as [2, 0], the order of the selection, and
    not as [0, 2]. *)
Lemma serialize_keeps_caller_order :
  MultiSelectSerde.serialize
    {| MultiSelectSerde.options := [VStr "a"; VStr "b"; VStr "c"];
       MultiSelectSerde.default_value := [] |}
    (VList [VStr "c"; VStr "a"])
  = Ok [2; 0]
  /\ MultiSelectSerde.serialize
       {| MultiSelectSerde.options := [VStr "a"; VStr "b"; VStr "c"];
          MultiSelectSerde.default_value := [] |}
       (VList [VStr "c"; VStr "a"])
     <> Ok [0; 2].
Proof.
  split; [reflexivity | discriminate].
Qed.

(** C3: for every list [v] of values drawn from the options the serde was
    built with, [deserialize(serialize(v)) == v]. *)
Theorem serde_round_trip
    (opt : list pyobj) (default_value : list Z) (widget_id : string)
    (v : list pyobj) :
  Forall (fun x => py_in x opt = true) v ->
  let serde :=
    {| MultiSelectSerde.options := opt;
       MultiSelectSerde.default_value := default_value |} in
  exists indices r,
    MultiSelectSerde.serialize serde (VList v) = Ok indices
    /\ MultiSelectSerde.deserialize serde (Some indices) widget_id = Ok r
    /\ py_eq (VList r) (VList v) = true.
Proof.
  intros Hv serde.
  destruct (convert_list opt v Hv) as (indices & Hconv & Hall).
  destruct (getitem_comprehension opt v indices Hall) as (r & Hget & Heq).
  exists indices, r. repeat split.
  - unfold MultiSelectSerde.serialize. simpl. rewrite Hconv. reflexivity.
  - exact Hget.
  - exact Heq.
Qed.

Lemma serde_round_trip_witness :
  exists indices r,
    MultiSelectSerde.serialize
      {| MultiSelectSerde.options := [VInt 1; VStr "b"; VBool true; VNone];
         MultiSelectSerde.default_value := [0] |}
      (VList [VNone; VBool true; VStr "b"; VInt 1]) = Ok indices
    /\ MultiSelectSerde.deserialize
         {| MultiSelectSerde.options := [VInt 1; VStr "b"; VBool true; VNone];
            MultiSelectSerde.default_value := [0] |}
         (Some indices) "" = Ok r
    /\ py_eq (VList r) (VList [VNone; VBool true; VStr "b"; VInt 1]) = true.
Proof.
  apply (serde_round_trip [VInt 1; VStr "b"; VBool true; VNone] [0] ""
           [VNone; VBool true; VStr "b"; VInt 1]).
  repeat constructor.
Defined.

End SerdeProperties.

(** ** The option normalizer *)

Module NormalizerProperties.
Import Py OptionsSelectorUtils Spec.

Lemma append_assoc (a b c : string) : (a ++ b) ++ c = a ++ b ++ c.
Proof.
  induction a as [|ch a IH]; simpl; [reflexivity | now rewrite IH].
Qed.

Lemma invalid_default_message_mentions (value : pyobj) :
  mentions (invalid_default_message value) ("'" ++ py_str value ++ "'").
Proof.
  exists "The default value ",
         (" is not part of the options. "
          ++ "Please make sure that every default values also exists in the options.").
  unfold invalid_default_message. rewrite !append_assoc. reflexivity.
Qed.

(** The path of a list: the loop raises for the first default that is no
    option, and the message quotes that value. *)
Lemma list_default_absent (opt before after : list pyobj) (x : pyobj) :
  Forall (fun y => py_in y opt = true) before ->
  py_in x opt = false ->
  _check_and_convert_to_indices opt (VList (before ++ x :: after)%list)
  = Raise (StreamlitAPIException (invalid_default_message x)).
Proof.
  intros Hbefore Hx. unfold _check_and_convert_to_indices. simpl.
  assert (Hloop :
    forM_ (fun value =>
             if negb (py_in value opt)
             then Raise (StreamlitAPIException (invalid_default_message value))
             else Ok tt) (before ++ x :: after)%list
    = Raise (StreamlitAPIException (invalid_default_message x))).
  { induction Hbefore as [|y before Hy _ IH]; simpl.
    - now rewrite Hx.
    - rewrite Hy. simpl. exact IH. }
  rewrite Hloop. reflexivity.
Qed.

Example list_default_5 :
  _check_and_convert_to_indices [VInt 1; VInt 2; VInt 3] (VList [VInt 5])
  = Raise (StreamlitAPIException
             ("The default value '5' is not part of the options. "
              ++ "Please make sure that every default values also exists in the options.")).
Proof. reflexivity. Qed.

(** C2 at the scalar the claim names: a default that is a non-zero integer
    and no option is handed to [list(...)], which raises [TypeError]; the
    loop that raises the invalid-default exception is not reached. *)
Theorem scalar_default_absent_raises_TypeError (opt : list pyobj) (n : Z) :
  n <> 0 ->
  py_in (VInt n) opt = false ->
  _check_and_convert_to_indices opt (VInt n) = Raise TypeError.
Proof.
  intros Hn Hin. unfold _check_and_convert_to_indices. simpl.
  rewrite Hin. apply Z.eqb_neq in Hn. rewrite Hn. reflexivity.
Qed.

(** The same through [transform_options], the entry point of the
    normalization. *)
Lemma transform_options_scalar_default `{F : Framework}
    (options : pyobj) (indexable_options : list pyobj) (n : Z)
    (format_func : option (pyobj -> result formatted)) :
  ensure_indexable options = Ok indexable_options ->
  check_python_comparable indexable_options = Ok tt ->
  n <> 0 ->
  py_in (VInt n) indexable_options = false ->
  transform_options options (VInt n) format_func = Raise TypeError.
Proof.
  intros Hidx Hcmp Hn Hin. unfold transform_options.
  rewrite Hidx. simpl. rewrite Hcmp. simpl.
  unfold _check_and_convert_to_indices. simpl.
  rewrite Hin. apply Z.eqb_neq in Hn. rewrite Hn. reflexivity.
Qed.

Lemma scalar_default_absent_raises_TypeError_witness :
  _check_and_convert_to_indices [VInt 1; VInt 2; VInt 3] (VInt 5)
  = Raise TypeError.
Proof.
  apply (scalar_default_absent_raises_TypeError [VInt 1; VInt 2; VInt 3] 5).
  - lia.
  - reflexivity.
Defined.

End NormalizerProperties.

(** ** Registration *)

Module RegistrationProperties.
Import Py OptionsSelectorUtils Spec.

Lemma bind_Ok {A B : Type} (c : result A) (k : A -> result B) (b : B) :
  bind c k = Ok b -> exists a, c = Ok a /\ k a = Ok b.
Proof.
  destruct c as [a|e]; simpl; intros Hk; [eauto | discriminate].
Qed.

Tactic Notation "bind_inv" hyp(H) "as" simple_intropattern(x) simple_intropattern(Hx) :=
  apply bind_Ok in H; destruct H as (x & Hx & H).

Lemma default_count_total (v : pyobj) :
  exists n, _get_default_count v = Ok n /\ 0 <= n.
Proof.
  destruct v; unfold _get_default_count; simpl;
    eexists; (split; [reflexivity | lia]).
Qed.


Section RegisterWidgetAndEnqueue.
Context `{F : Framework} {P : Type} `{SP : SelectorProto P} {T : Type}.
Variables (dg : DeltaGenerator) (widget_name : string) (proto : P)
          (widget_id : string) (options : pyobj)
          (indexable_options : list pyobj)
          (deserializer : WidgetDeserializer) (serializer : WidgetSerializer)
          (ctx : option ScriptRunContext)
          (on_change_handler : option WidgetCallback)
          (args : option WidgetArgs) (kwargs : option WidgetKwargs)
          (app_testing_value : T).

(** The call under study, as a function of the limit. *)
Let run (max_selections : option Z) :=
  register_widget_and_enqueue dg widget_name proto widget_id options
    indexable_options deserializer serializer ctx on_change_handler args
    kwargs max_selections app_testing_value.

Let registered :=
  register_widget P widget_name proto on_change_handler args kwargs
    deserializer serializer ctx.

Let coerced (widget_state : RegisterWidgetResult.t) :=
  if isinstance_list (RegisterWidgetResult.value widget_state)
  then maybe_coerce_enum_sequence widget_state options indexable_options
  else maybe_coerce_enum widget_state options indexable_options.

(** What a call that returns went through, step by step. *)
Lemma register_widget_and_enqueue_Ok
    (max_selections : option Z)
    (out : Outcome pyobj P DeltaGenerator ScriptRunContext) :
  run max_selections = Ok out ->
  exists (widget_state widget_state' : RegisterWidgetResult.t) (n : Z),
    registered = Ok widget_state
    /\ _get_default_count (RegisterWidgetResult.value widget_state) = Ok n
    /\ match max_selections with
       | Some m => m = 0 \/ n <= m
       | None => True
       end
    /\ coerced widget_state = Ok widget_state'
    /\ returned out = RegisterWidgetResult.value widget_state'
    /\ (if RegisterWidgetResult.value_changed widget_state'
        then exists value,
               serializer (RegisterWidgetResult.value widget_state') = Ok value
               /\ message out = assign_set_value true (assign_value value proto)
        else message out = proto).
Proof.
  unfold run, register_widget_and_enqueue. intros Hrun.
  bind_inv Hrun as widget_state Hreg.
  bind_inv Hrun as n Hcount.
  bind_inv Hrun as u Hcheck.
  bind_inv Hrun as widget_state' Hcoerce.
  bind_inv Hrun as proto' Hproto.
  bind_inv Hrun as ctx' Hctx.
  bind_inv Hrun as dg' Hdg.
  injection Hrun as <-. simpl.
  exists widget_state, widget_state', n. repeat split; try assumption.
  - destruct max_selections as [m|]; [| exact I].
    destruct (m =? 0) eqn:Hm0; simpl in Hcheck.
    + left. now apply Z.eqb_eq.
    + destruct (n >? m) eqn:Hgt; [discriminate |].
      right. rewrite Z.gtb_ltb in Hgt. now apply Z.ltb_ge.
  - destruct (RegisterWidgetResult.value_changed widget_state').
    + bind_inv Hproto as value Hser. injection Hproto as <-. eauto.
    + now injection Hproto as <-.
Qed.


End RegisterWidgetAndEnqueue.

Lemma _build_proto_Ok
    (widget_id : string) (formatted_options : list formatted)
    (default_values : list Z) (disabled : bool) (current_form_id : string)
    (click_mode : ButtonGroupProto.ClickMode)
    (selection_visualization : ButtonGroupProto.SelectionVisualization)
    (proto : ButtonGroupProto.t) :
  ButtonGroup._build_proto widget_id formatted_options default_values disabled
    current_form_id click_mode selection_visualization = Ok proto ->
  ButtonGroupProto.id proto = widget_id
  /\ ButtonGroupProto.default proto = default_values
  /\ ButtonGroupProto.value proto = []
  /\ ButtonGroupProto.set_value proto = false.
Proof.
  unfold ButtonGroup._build_proto. intros Hbuild.
  bind_inv Hbuild as stored Hstored.
  bind_inv Hbuild as opts Hopts. injection Hbuild as <-. simpl.
  unfold ButtonGroup.assign_repeated_uint32 in Hstored.
  destruct (forallb ButtonGroup.is_uint32 default_values); [| discriminate].
  injection Hstored as <-. auto.
Qed.

Section ButtonGroupCall.
Context `{F : Framework}.
Variables (self : DeltaGenerator) (options : pyobj) (key : option pyobj)
          (default : pyobj) (click_mode : ButtonGroupProto.ClickMode)
          (disabled : bool)
          (format_func : option (pyobj -> result formatted))
          (deserializer : option WidgetDeserializer)
          (serializer : option WidgetSerializer)
          (on_change : option WidgetCallback)
          (args : option WidgetArgs) (kwargs : option WidgetKwargs)
          (selection_visualization : ButtonGroupProto.SelectionVisualization)
          (ctx : option ScriptRunContext).

(** What a call of [_button_group] that returns went through. *)
Lemma _button_group_Ok
    (out : Outcome RegisterWidgetResult.t ButtonGroupProto.t
             DeltaGenerator ScriptRunContext) :
  ButtonGroup._button_group self options key default click_mode disabled
    format_func deserializer serializer on_change args kwargs
    selection_visualization ctx = Ok out ->
  exists (indexable_options : list pyobj) (formatted_options : list formatted)
         (default_values : list Z) (proto : ButtonGroupProto.t)
         (widget_state : RegisterWidgetResult.t),
    transform_options options default format_func
    = Ok (indexable_options, formatted_options, default_values)
    /\ ButtonGroup._build_proto
         (compute_widget_id "button_group" (to_key key) (to_key key)
            formatted_options default_values disabled selection_visualization
            (option_map active_script_hash ctx))
         formatted_options default_values disabled (current_form_id self)
         click_mode selection_visualization = Ok proto
    /\ register_widget ButtonGroupProto.t "button_group" proto on_change args
         kwargs
         (fst (ButtonGroup.select_serde indexable_options default_values
                 deserializer serializer))
         (snd (ButtonGroup.select_serde indexable_options default_values
                 deserializer serializer))
         ctx = Ok widget_state
    /\ check_max_selections (RegisterWidgetResult.value widget_state) None
       = Ok tt
    /\ maybe_coerce widget_state options indexable_options = Ok (returned out)
    /\ (if RegisterWidgetResult.value_changed (returned out)
        then exists value,
               snd (ButtonGroup.select_serde indexable_options default_values
                      deserializer serializer)
                   (RegisterWidgetResult.value (returned out)) = Ok value
               /\ message out = assign_set_value true (assign_value value proto)
        else message out = proto).
Proof.
  unfold ButtonGroup._button_group. intros Hrun.
  bind_inv Hrun as u Hpolicies.
  bind_inv Hrun as transformed Htransform.
  destruct transformed as [[indexable_options formatted_options] default_values].
  bind_inv Hrun as proto Hproto.
  destruct (ButtonGroup.select_serde indexable_options default_values
              deserializer serializer) as [deserializer' serializer'] eqn:Hserde.
  bind_inv Hrun as widget_state Hreg.
  bind_inv Hrun as u' Hcheck. destruct u'.
  bind_inv Hrun as widget_state' Hcoerce.
  bind_inv Hrun as proto' Hmsg.
  bind_inv Hrun as ctx' Hctx.
  bind_inv Hrun as dg' Hdg.
  injection Hrun as <-.
  exists indexable_options, formatted_options, default_values, proto,
         widget_state.
  rewrite Hserde. simpl.
  split; [exact Htransform |].
  split; [destruct ctx; exact Hproto |].
  split; [exact Hreg |].
  split; [exact Hcheck |].
  split; [exact Hcoerce |].
  destruct (RegisterWidgetResult.value_changed widget_state').
  - bind_inv Hmsg as value Hser. bind_inv Hmsg as stored Hstored.
    unfold ButtonGroup.assign_repeated_uint32 in Hstored.
    destruct (forallb ButtonGroup.is_uint32 value); [| discriminate].
    injection Hstored as <-. injection Hmsg as <-. eauto.
  - now injection Hmsg as <-.
Qed.

End ButtonGroupCall.

Section Order.
Context `{F : Framework} {P : Type} `{SP : SelectorProto P} {T : Type}.

(** C4, as the code has it: the cardinality check comes strictly before the
    coercion, in [register_widget_and_enqueue] and in [_button_group].  The
    value counted is the one the state register returned.  When its count
    exceeds the limit the call raises the limit's exception whatever the
    coercion would do with the value, also when the coercion itself would
    raise; the coercion decides the call's result only for a state that
    passed the check, and then its exception is the call's, and its value
    is what a call that returns has returned.  In [_button_group] the check
    is [check_max_selections] on the value of the state [register_widget]
    returned: what it raises the call raises, whatever [maybe_coerce] would
    do, and [maybe_coerce] is applied to this state once the check has
    passed. *)
Theorem validation_precedes_coercion :
  (forall (dg : DeltaGenerator) (widget_name : string) (proto : P)
          (widget_id : string) (options : pyobj)
          (indexable_options : list pyobj)
          (deserializer : WidgetDeserializer) (serializer : WidgetSerializer)
          (ctx : option ScriptRunContext)
          (on_change_handler : option WidgetCallback)
          (args : option WidgetArgs) (kwargs : option WidgetKwargs)
          (app_testing_value : T)
          (widget_state : RegisterWidgetResult.t) (n : Z),
      register_widget P widget_name proto on_change_handler args kwargs
        deserializer serializer ctx = Ok widget_state ->
      _get_default_count (RegisterWidgetResult.value widget_state) = Ok n ->
      (forall m : Z,
          m <> 0 -> n > m ->
          register_widget_and_enqueue dg widget_name proto widget_id options
            indexable_options deserializer serializer ctx on_change_handler
            args kwargs (Some m) app_testing_value
          = Raise (StreamlitAPIException (_get_over_max_options_message n m)))
      /\ (forall (max_selections : option Z) (e : exn),
             match max_selections with
             | Some m => m = 0 \/ n <= m
             | None => True
             end ->
             (if isinstance_list (RegisterWidgetResult.value widget_state)
              then maybe_coerce_enum_sequence widget_state options
                     indexable_options
              else maybe_coerce_enum widget_state options indexable_options)
             = Raise e ->
             register_widget_and_enqueue dg widget_name proto widget_id
               options indexable_options deserializer serializer ctx
               on_change_handler args kwargs max_selections app_testing_value
             = Raise e)
      /\ (forall (max_selections : option Z)
                 (out : Outcome pyobj P DeltaGenerator ScriptRunContext),
             register_widget_and_enqueue dg widget_name proto widget_id
               options indexable_options deserializer serializer ctx
               on_change_handler args kwargs max_selections app_testing_value
             = Ok out ->
             match max_selections with
             | Some m => m = 0 \/ n <= m
             | None => True
             end
             /\ exists widget_state' : RegisterWidgetResult.t,
                  (if isinstance_list (RegisterWidgetResult.value widget_state)
                   then maybe_coerce_enum_sequence widget_state options
                          indexable_options
                   else maybe_coerce_enum widget_state options
                          indexable_options)
                  = Ok widget_state'
                  /\ returned out = RegisterWidgetResult.value widget_state'))
  /\ (forall (self : DeltaGenerator) (options : pyobj) (key : option pyobj)
             (default : pyobj) (click_mode : ButtonGroupProto.ClickMode)
             (disabled : bool)
             (format_func : option (pyobj -> result formatted))
             (deserializer : option WidgetDeserializer)
             (serializer : option WidgetSerializer)
             (on_change : option WidgetCallback)
             (args : option WidgetArgs) (kwargs : option WidgetKwargs)
             (selection_visualization : ButtonGroupProto.SelectionVisualization)
             (ctx : option ScriptRunContext)
             (indexable_options : list pyobj)
             (formatted_options : list formatted) (default_values : list Z)
             (proto : ButtonGroupProto.t)
             (widget_state : RegisterWidgetResult.t),
         check_multiselect_policies self (to_key key) on_change default
         = Ok tt ->
         transform_options options default format_func
         = Ok (indexable_options, formatted_options, default_values) ->
         ButtonGroup._build_proto
           (compute_widget_id "button_group" (to_key key) (to_key key)
              formatted_options default_values disabled
              selection_visualization (option_map active_script_hash ctx))
           formatted_options default_values disabled (current_form_id self)
           click_mode selection_visualization = Ok proto ->
         register_widget ButtonGroupProto.t "button_group" proto on_change
           args kwargs
           (fst (ButtonGroup.select_serde indexable_options default_values
                   deserializer serializer))
           (snd (ButtonGroup.select_serde indexable_options default_values
                   deserializer serializer))
           ctx = Ok widget_state ->
         (forall e : exn,
             check_max_selections (RegisterWidgetResult.value widget_state)
               None = Raise e ->
             ButtonGroup._button_group self options key default click_mode
               disabled format_func deserializer serializer on_change args
               kwargs selection_visualization ctx = Raise e)
         /\ (forall e : exn,
                check_max_selections (RegisterWidgetResult.value widget_state)
                  None = Ok tt ->
                maybe_coerce widget_state options indexable_options
                = Raise e ->
                ButtonGroup._button_group self options key default click_mode
                  disabled format_func deserializer serializer on_change args
                  kwargs selection_visualization ctx = Raise e)
         /\ (forall out : Outcome RegisterWidgetResult.t ButtonGroupProto.t
                            DeltaGenerator ScriptRunContext,
                ButtonGroup._button_group self options key default click_mode
                  disabled format_func deserializer serializer on_change args
                  kwargs selection_visualization ctx = Ok out ->
                check_max_selections (RegisterWidgetResult.value widget_state)
                  None = Ok tt
                /\ maybe_coerce widget_state options indexable_options
                   = Ok (returned out))).
Proof.
  split.
  - intros * Hreg Hcount. repeat split.
    + intros m Hm Hgt.
      unfold register_widget_and_enqueue. rewrite Hreg. simpl.
      rewrite Hcount. simpl.
      apply Z.eqb_neq in Hm. rewrite Hm.
      assert (Hgtb : (n >? m) = true) by (rewrite Z.gtb_ltb; apply Z.ltb_lt; lia).
      rewrite Hgtb. reflexivity.
    + intros max_selections e Hwithin Hcoerce.
      unfold register_widget_and_enqueue. rewrite Hreg. simpl.
      rewrite Hcount. simpl.
      assert (Hcheck :
                match max_selections with
                | Some m =>
                    if negb (m =? 0) && (n >? m)
                    then Raise (StreamlitAPIException
                                  (_get_over_max_options_message n m))
                    else Ok tt
                | None => Ok tt
                end = Ok tt).
      { destruct max_selections as [m|]; [| reflexivity].
        destruct Hwithin as [-> | Hle]; [reflexivity |].
        assert (Hgtb : (n >? m) = false)
          by (rewrite Z.gtb_ltb; apply Z.ltb_ge; lia).
        rewrite Hgtb, andb_false_r. reflexivity. }
      rewrite Hcheck. simpl. rewrite Hcoerce. reflexivity.
    + destruct (register_widget_and_enqueue_Ok
                  _ _ _ _ _ _ _ _ _ _ _ _ _ _ _ H)
        as (ws & ws' & n' & Hreg' & Hcount' & Hmax & _).
      rewrite Hreg in Hreg'. injection Hreg' as <-.
      rewrite Hcount in Hcount'. injection Hcount' as <-. exact Hmax.
    + destruct (register_widget_and_enqueue_Ok
                  _ _ _ _ _ _ _ _ _ _ _ _ _ _ _ H)
        as (ws & ws' & n' & Hreg' & _ & _ & Hcoerce & Hret & _).
      rewrite Hreg in Hreg'. injection Hreg' as <-.
      exists ws'. split; assumption.
  - intros * Hpolicies Htransform Hbuild Hreg.
    assert (Hrun :
              ButtonGroup._button_group self options key default click_mode
                disabled format_func deserializer serializer on_change args
                kwargs selection_visualization ctx
              = (check_max_selections (RegisterWidgetResult.value widget_state)
                   None ;;;
                 widget_state' <-
                   maybe_coerce widget_state options indexable_options ;;
                 proto' <-
                   (if RegisterWidgetResult.value_changed widget_state'
                    then
                      value <-
                        snd (ButtonGroup.select_serde indexable_options
                               default_values deserializer serializer)
                          (RegisterWidgetResult.value widget_state') ;;
                      value <- ButtonGroup.assign_repeated_uint32 value ;;
                      Ok (assign_set_value true (assign_value value proto))
                    else Ok proto) ;;
                 ctx' <-
                   (match ctx with
                    | Some ctx =>
                        ctx <-
                          save_for_app_testing _ ctx
                            (compute_widget_id "button_group" (to_key key)
                               (to_key key) formatted_options default_values
                               disabled selection_visualization
                               (Some (active_script_hash ctx)))
                            format_func ;;
                        Ok (Some ctx)
                    | None => Ok None
                    end) ;;
                 dg <- _enqueue ButtonGroupProto.t self "button_group" proto' ;;
                 Ok {| returned := widget_state';
                       message := proto';
                       generator := dg;
                       context := ctx' |})).
    { unfold ButtonGroup._button_group. rewrite Hpolicies. simpl.
      rewrite Htransform. simpl.
      destruct ctx as [c|]; simpl in Hbuild |- *; rewrite Hbuild; simpl;
        destruct (ButtonGroup.select_serde indexable_options default_values
                    deserializer serializer) as [deserializer' serializer'];
        simpl in Hreg |- *; rewrite Hreg; reflexivity. }
    repeat split.
    + intros e Hcheck. rewrite Hrun, Hcheck. reflexivity.
    + intros e Hcheck Hcoerce. rewrite Hrun, Hcheck. simpl.
      rewrite Hcoerce. reflexivity.
    + destruct (check_max_selections (RegisterWidgetResult.value widget_state)
                  None) as [[]|e] eqn:Hcheck; [reflexivity |].
      rewrite Hrun in H. discriminate.
    + rewrite Hrun in H.
      bind_inv H as u Hcheck.
      bind_inv H as widget_state' Hcoerce.
      bind_inv H as proto' Hmsg.
      bind_inv H as ctx' Hctx.
      bind_inv H as dg' Hdg.
      injection H as <-. exact Hcoerce.
Qed.

(** C5: the message's [value] and [set_value] are written only when the
    registered state has [value_changed]; then [set_value] is true and
    [value] is the serialized value.  When [value_changed] is false the two
    fields are as they were: those of the message passed to
    [register_widget_and_enqueue], and the unset fields of the message
    [_button_group] has built. *)
Theorem override_only_when_value_changed :
  (forall (dg : DeltaGenerator) (widget_name : string) (proto : P)
          (widget_id : string) (options : pyobj)
          (indexable_options : list pyobj)
          (deserializer : WidgetDeserializer) (serializer : WidgetSerializer)
          (ctx : option ScriptRunContext)
          (on_change_handler : option WidgetCallback)
          (args : option WidgetArgs) (kwargs : option WidgetKwargs)
          (max_selections : option Z) (app_testing_value : T)
          (out : Outcome pyobj P DeltaGenerator ScriptRunContext),
      register_widget_and_enqueue dg widget_name proto widget_id options
        indexable_options deserializer serializer ctx on_change_handler args
        kwargs max_selections app_testing_value = Ok out ->
      exists widget_state widget_state' : RegisterWidgetResult.t,
        register_widget P widget_name proto on_change_handler args kwargs
          deserializer serializer ctx = Ok widget_state
        /\ (if isinstance_list (RegisterWidgetResult.value widget_state)
            then maybe_coerce_enum_sequence widget_state options
                   indexable_options
            else maybe_coerce_enum widget_state options indexable_options)
           = Ok widget_state'
        /\ (RegisterWidgetResult.value_changed widget_state' = false ->
            message out = proto)
        /\ (RegisterWidgetResult.value_changed widget_state' = true ->
            proto_set_value (message out) = true
            /\ serializer (RegisterWidgetResult.value widget_state')
               = Ok (proto_value (message out))))
  /\ (forall (self : DeltaGenerator) (options : pyobj) (key : option pyobj)
             (default : pyobj) (click_mode : ButtonGroupProto.ClickMode)
             (disabled : bool)
             (format_func : option (pyobj -> result formatted))
             (deserializer : option WidgetDeserializer)
             (serializer : option WidgetSerializer)
             (on_change : option WidgetCallback)
             (args : option WidgetArgs) (kwargs : option WidgetKwargs)
             (selection_visualization : ButtonGroupProto.SelectionVisualization)
             (ctx : option ScriptRunContext)
             (out : Outcome RegisterWidgetResult.t ButtonGroupProto.t
                      DeltaGenerator ScriptRunContext),
         ButtonGroup._button_group self options key default click_mode
           disabled format_func deserializer serializer on_change args kwargs
           selection_visualization ctx = Ok out ->
         (RegisterWidgetResult.value_changed (returned out) = false ->
          ButtonGroupProto.value (message out) = []
          /\ ButtonGroupProto.set_value (message out) = false)
         /\ (RegisterWidgetResult.value_changed (returned out) = true ->
             ButtonGroupProto.set_value (message out) = true
             /\ exists (indexable_options : list pyobj)
                       (formatted_options : list formatted)
                       (default_values : list Z),
                  transform_options options default format_func
                  = Ok (indexable_options, formatted_options, default_values)
                  /\ snd (ButtonGroup.select_serde indexable_options
                            default_values deserializer serializer)
                         (RegisterWidgetResult.value (returned out))
                     = Ok (ButtonGroupProto.value (message out)))).
Proof.
  split.
  - intros * Hrun.
    destruct (register_widget_and_enqueue_Ok _ _ _ _ _ _ _ _ _ _ _ _ _ _ _ Hrun)
      as (ws & ws' & n & Hreg & _ & _ & Hcoerce & _ & Hmsg).
    exists ws, ws'.
    split; [exact Hreg |]. split; [exact Hcoerce |].
    split; intros Hchanged; rewrite Hchanged in Hmsg.
    + exact Hmsg.
    + destruct Hmsg as (value & Hser & ->). split.
      * apply set_value_assign_set_value.
      * now rewrite value_assign_set_value, value_assign_value.
  - intros * Hrun.
    destruct (_button_group_Ok _ _ _ _ _ _ _ _ _ _ _ _ _ _ _ Hrun)
      as (io & fo & dv & proto & ws & Htr & Hbuild & _ & _ & _ & Hmsg).
    destruct (_build_proto_Ok _ _ _ _ _ _ _ _ Hbuild) as (_ & _ & Hv & Hs).
    split; intros Hchanged; rewrite Hchanged in Hmsg.
    + rewrite Hmsg. now split.
    + destruct Hmsg as (value & Hser & ->). split; [reflexivity |].
      exists io, fo, dv. split; [exact Htr | exact Hser].
Qed.

End Order.

(** The default [1, 2, 3] of the options 1 to 5 is at the indices 0, 1, 2,
    and a first run registers the default. *)
Example default_1_2_3 :
  transform_options (F := Demo.framework Demo.first_run Demo.no_coercion)
    (VList Demo.one_to_five) (VList [VInt 1; VInt 2; VInt 3]) None
  = Ok (Demo.one_to_five,
        [FStr "1"; FStr "2"; FStr "3"; FStr "4"; FStr "5"],
        [0; 1; 2])
  /\ Demo.first_run
       (fst (ButtonGroup.select_serde Demo.one_to_five [0; 1; 2] None None))
     = Ok {| RegisterWidgetResult.value := VList [VInt 1; VInt 2; VInt 3];
             RegisterWidgetResult.value_changed := false |}.
Proof. split; reflexivity. Qed.



(** C4, as the claim has it, fails.  The stored value [1, 2, 9] is counted
    as it comes from the state register, 3 against the limit 2, and the call
    raises the limit's exception, in a framework whose coercion raises as
    soon as it is called: the check has run, and ended the call, before the
    coercion.  Without a limit the same call does reach the coercion.  In
    [_button_group], with a check and a coercion that both raise when
    called, it is the check that is reached. *)
Lemma limit_counts_value_before_coercion :
  Demo.probed_multiselect (Some 2)
  = Raise (StreamlitAPIException (_get_over_max_options_message 3 2))
  /\ Demo.probed_multiselect None
     = Raise (OtherException "RuntimeError" "the coercion was called")
  /\ Demo.button_group
       (Demo.framework_with Demo.written_id Demo.raising_check Demo.first_run
          Demo.raising_coercion)
       [] None (VList Demo.one_to_three) (VList [VInt 2])
       ButtonGroupProto.MULTI_SELECT
     = Raise (OtherException "RuntimeError" "the check was called").
Proof. repeat split. Qed.

Lemma validation_precedes_coercion_witness :
  (Demo.probed_multiselect (Some 2)
   = Raise (StreamlitAPIException (_get_over_max_options_message 3 2))
   /\ Demo.probed_multiselect (Some 5)
      = Raise (OtherException "RuntimeError" "the coercion was called")
   /\ exists out,
        Demo.multiselect (Demo.framework Demo.first_run Demo.no_coercion)
          [] None (Some 5) = Ok out
        /\ (5 = 0 \/ 3 <= 5)
        /\ exists widget_state',
             Demo.no_coercion
               {| RegisterWidgetResult.value := VList [VInt 1; VInt 2; VInt 3];
                  RegisterWidgetResult.value_changed := false |}
               Demo.one_to_five = Ok widget_state'
             /\ returned out = RegisterWidgetResult.value widget_state')
  /\ (Demo.button_group
        (Demo.framework_with Demo.written_id Demo.raising_check
           Demo.first_run Demo.raising_coercion)
        [] None (VList Demo.one_to_three) (VList [VInt 2])
        ButtonGroupProto.MULTI_SELECT
      = Raise (OtherException "RuntimeError" "the check was called")
      /\ Demo.button_group
           (Demo.framework Demo.first_run Demo.raising_coercion)
           [] None (VList Demo.one_to_three) (VList [VInt 2])
           ButtonGroupProto.MULTI_SELECT
         = Raise (OtherException "RuntimeError" "the coercion was called")
      /\ exists out,
           Demo.button_group (Demo.framework Demo.first_run Demo.no_coercion)
             [] None (VList Demo.one_to_three) (VList [VInt 2])
             ButtonGroupProto.MULTI_SELECT = Ok out
           /\ Demo.count_check (VList [VInt 2]) None = Ok tt
           /\ Demo.no_coercion
                {| RegisterWidgetResult.value := VList [VInt 2];
                   RegisterWidgetResult.value_changed := false |}
                Demo.one_to_three = Ok (returned out)).
Proof.
  split; [split; [| split] | split; [| split]].
  - refine (proj1 (proj1 (validation_precedes_coercion
                     (F := Demo.framework
                             (Demo.session_write (VList [VInt 1; VInt 2; VInt 9]))
                             Demo.raising_coercion)
                     (P := ButtonGroupProto.t) (T := unit))
              [] "multiselect" ButtonGroupProto.empty "w"
              (VList Demo.one_to_three) Demo.one_to_three
              (fst (ButtonGroup.select_serde Demo.one_to_three [] None None))
              (snd (ButtonGroup.select_serde Demo.one_to_three [] None None))
              None None None None tt Demo.stale_state 3 eq_refl eq_refl)
            2 _ _); [discriminate | reflexivity].
  - refine (proj1 (proj2 (proj1 (validation_precedes_coercion
                     (F := Demo.framework
                             (Demo.session_write (VList [VInt 1; VInt 2; VInt 9]))
                             Demo.raising_coercion)
                     (P := ButtonGroupProto.t) (T := unit))
              [] "multiselect" ButtonGroupProto.empty "w"
              (VList Demo.one_to_three) Demo.one_to_three
              (fst (ButtonGroup.select_serde Demo.one_to_three [] None None))
              (snd (ButtonGroup.select_serde Demo.one_to_three [] None None))
              None None None None tt Demo.stale_state 3 eq_refl eq_refl))
            (Some 5) _ _ eq_refl). right. lia.
  - eexists. split; [reflexivity |].
    refine (proj2 (proj2 (proj1 (validation_precedes_coercion
                     (F := Demo.framework Demo.first_run Demo.no_coercion)
                     (P := ButtonGroupProto.t) (T := unit))
              [] "multiselect" ButtonGroupProto.empty "w"
              (VList Demo.one_to_five) Demo.one_to_five
              (fst (ButtonGroup.select_serde Demo.one_to_five [0; 1; 2] None None))
              (snd (ButtonGroup.select_serde Demo.one_to_five [0; 1; 2] None None))
              None None None None tt
              {| RegisterWidgetResult.value := VList [VInt 1; VInt 2; VInt 3];
                 RegisterWidgetResult.value_changed := false |}
              3 eq_refl eq_refl))
            (Some 5) _ eq_refl).
  - refine (proj1 (proj2 (validation_precedes_coercion
                     (F := Demo.framework_with Demo.written_id
                             Demo.raising_check Demo.first_run
                             Demo.raising_coercion)
                     (P := ButtonGroupProto.t) (T := unit))
              [] (VList Demo.one_to_three) None (VList [VInt 2])
              ButtonGroupProto.MULTI_SELECT false (Some Demo.as_option)
              None None None None None ButtonGroupProto.ONLY_SELECTED None
              Demo.one_to_three _ [1] _
              {| RegisterWidgetResult.value := VList [VInt 2];
                 RegisterWidgetResult.value_changed := false |}
              eq_refl eq_refl eq_refl eq_refl)
            _ eq_refl).
  - refine (proj1 (proj2 (proj2 (validation_precedes_coercion
                     (F := Demo.framework Demo.first_run Demo.raising_coercion)
                     (P := ButtonGroupProto.t) (T := unit))
              [] (VList Demo.one_to_three) None (VList [VInt 2])
              ButtonGroupProto.MULTI_SELECT false (Some Demo.as_option)
              None None None None None ButtonGroupProto.ONLY_SELECTED None
              Demo.one_to_three _ [1] _
              {| RegisterWidgetResult.value := VList [VInt 2];
                 RegisterWidgetResult.value_changed := false |}
              eq_refl eq_refl eq_refl eq_refl))
            _ eq_refl eq_refl).
  - eexists. split; [reflexivity |].
    refine (proj2 (proj2 (proj2 (validation_precedes_coercion
                     (F := Demo.framework Demo.first_run Demo.no_coercion)
                     (P := ButtonGroupProto.t) (T := unit))
              [] (VList Demo.one_to_three) None (VList [VInt 2])
              ButtonGroupProto.MULTI_SELECT false (Some Demo.as_option)
              None None None None None ButtonGroupProto.ONLY_SELECTED None
              Demo.one_to_three _ [1] _
              {| RegisterWidgetResult.value := VList [VInt 2];
                 RegisterWidgetResult.value_changed := false |}
              eq_refl eq_refl eq_refl eq_refl))
            _ eq_refl).
Defined.

Lemma override_only_when_value_changed_witness :
  (exists out,
     Demo.stale_multiselect None = Ok out
     /\ exists widget_state widget_state' : RegisterWidgetResult.t,
          Demo.session_write (VList [VInt 1; VInt 2; VInt 9])
            (fst (ButtonGroup.select_serde Demo.one_to_three [] None None))
          = Ok widget_state
          /\ (if isinstance_list (RegisterWidgetResult.value widget_state)
              then Demo.drop_stale widget_state Demo.one_to_three
              else Demo.drop_stale widget_state Demo.one_to_three)
             = Ok widget_state'
          /\ (RegisterWidgetResult.value_changed widget_state' = false ->
              message out = ButtonGroupProto.empty)
          /\ (RegisterWidgetResult.value_changed widget_state' = true ->
              ButtonGroupProto.set_value (message out) = true
              /\ snd (ButtonGroup.select_serde Demo.one_to_three [] None None)
                     (RegisterWidgetResult.value widget_state')
                 = Ok (ButtonGroupProto.value (message out))))
  /\ (exists out,
        Demo.button_group (Demo.framework Demo.first_run Demo.no_coercion)
          [] None (VList Demo.one_to_three) (VList [VInt 2])
          ButtonGroupProto.MULTI_SELECT = Ok out
        /\ (RegisterWidgetResult.value_changed (returned out) = false ->
            ButtonGroupProto.value (message out) = []
            /\ ButtonGroupProto.set_value (message out) = false)
        /\ (RegisterWidgetResult.value_changed (returned out) = true ->
            ButtonGroupProto.set_value (message out) = true
            /\ exists (indexable_options : list pyobj)
                      (formatted_options : list formatted)
                      (default_values : list Z),
                 transform_options
                   (F := Demo.framework Demo.first_run Demo.no_coercion)
                   (VList Demo.one_to_three) (VList [VInt 2])
                   (Some Demo.as_option)
                 = Ok (indexable_options, formatted_options, default_values)
                 /\ snd (ButtonGroup.select_serde indexable_options
                           default_values None None)
                        (RegisterWidgetResult.value (returned out))
                    = Ok (ButtonGroupProto.value (message out)))).
Proof.
  split.
  - eexists. split; [reflexivity |].
    refine (proj1 (override_only_when_value_changed
                    (F := Demo.framework
                            (Demo.session_write (VList [VInt 1; VInt 2; VInt 9]))
                            Demo.drop_stale)
                    (P := ButtonGroupProto.t) (T := unit))
             [] "multiselect" ButtonGroupProto.empty "w"
             (VList Demo.one_to_three) Demo.one_to_three
             (fst (ButtonGroup.select_serde Demo.one_to_three [] None None))
             (snd (ButtonGroup.select_serde Demo.one_to_three [] None None))
             None None None None None tt _ _).
    reflexivity.
  - eexists. split; [reflexivity |].
    refine (proj2 (override_only_when_value_changed
                    (F := Demo.framework Demo.first_run Demo.no_coercion)
                    (P := ButtonGroupProto.t) (T := unit))
             [] (VList Demo.one_to_three) None (VList [VInt 2])
             ButtonGroupProto.MULTI_SELECT false (Some Demo.as_option)
             None None None None None ButtonGroupProto.ONLY_SELECTED None _ _).
    reflexivity.
Defined.

End RegistrationProperties.

(** ** Widget identity *)

Module IdentityProperties.
Import Py OptionsSelectorUtils Spec.











Section Identity.
Context `{F : Framework}.




End Identity.


End IdentityProperties.

(** ** The feedback widget *)

Module FeedbackProperties.
Import Py OptionsSelectorUtils Spec.

Section Feedback.
Context `{F : Framework}.
Variables (self : DeltaGenerator) (key : option string) (disabled : bool)
          (on_change : option WidgetCallback)
          (args : option WidgetArgs) (kwargs : option WidgetKwargs)
          (ctx : option ScriptRunContext).

(** C9: a string that is none of the three labels makes [feedback] raise
    the exception whose message lists the labels and quotes the argument;
    for "thumbs", "faces" and "stars" the check passes and the call is what
    follows the check. *)
Theorem feedback_rejects_unknown_label (label : string) :
  py_in (VStr label) ButtonGroup.FeedbackOptions_args = false ->
  ButtonGroup.feedback self (VStr label) key disabled on_change args kwargs ctx
  = Raise (StreamlitAPIException
             (ButtonGroup.invalid_feedback_options_message (VStr label)))
  /\ mentions (ButtonGroup.invalid_feedback_options_message (VStr label))
       "['thumbs', 'faces', 'stars']"
  /\ mentions (ButtonGroup.invalid_feedback_options_message (VStr label))
       ("'" ++ label ++ "'")
  /\ ButtonGroup.feedback self (VStr "thumbs") key disabled on_change args
       kwargs ctx
     = ButtonGroup.feedback_widget self (VStr "thumbs") key disabled on_change
         args kwargs ctx
  /\ ButtonGroup.feedback self (VStr "faces") key disabled on_change args
       kwargs ctx
     = ButtonGroup.feedback_widget self (VStr "faces") key disabled on_change
         args kwargs ctx
  /\ ButtonGroup.feedback self (VStr "stars") key disabled on_change args
       kwargs ctx
     = ButtonGroup.feedback_widget self (VStr "stars") key disabled on_change
         args kwargs ctx.
Proof.
  intros Hlabel. repeat split.
  - unfold ButtonGroup.feedback. simpl isinstance_list. rewrite Hlabel.
    reflexivity.
  - exists "The options argument to st.feedback must be one of ",
           (". The argument passed was '" ++ label ++ "'.").
    reflexivity.
  - exists ("The options argument to st.feedback must be one of "
            ++ "['thumbs', 'faces', 'stars']. The argument passed was "),
           ".".
    unfold ButtonGroup.invalid_feedback_options_message. simpl py_str.
    rewrite !NormalizerProperties.append_assoc. reflexivity.
Qed.

(** C10: for an argument that is a list the check is skipped, whatever the
    list holds: the call is what follows the check. *)
Theorem feedback_skips_check_for_lists (xs : list pyobj) :
  ButtonGroup.feedback self (VList xs) key disabled on_change args kwargs ctx
  = ButtonGroup.feedback_widget self (VList xs) key disabled on_change args
      kwargs ctx.
Proof.
  reflexivity.
Qed.

End Feedback.

Lemma feedback_rejects_unknown_label_witness :
  ButtonGroup.feedback (F := Demo.framework Demo.first_run Demo.no_coercion)
    [] (VStr "bogus") None false None None None None
  = Raise (StreamlitAPIException
             ("The options argument to st.feedback must be one of "
              ++ "['thumbs', 'faces', 'stars']. "
              ++ "The argument passed was 'bogus'.")).
Proof.
  exact (proj1 (feedback_rejects_unknown_label
                  (F := Demo.framework Demo.first_run Demo.no_coercion)
                  [] None false None None None None "bogus" eq_refl)).
Defined.

End FeedbackProperties.

(** ** Page navigation *)

Module PagesProperties.
Import Py Pages.

Section Table.
Variable calc_md5 : string -> string.

Let step (page_dict : dict Page) (page : Page) : dict Page :=
  dict_set page_dict (_script_hash calc_md5 page) page.

Lemma dict_get_set_None {V : Type} (d : dict V) (k k' : string) (v : V) :
  dict_get d k' = None -> k <> k' -> dict_get (dict_set d k v) k' = None.
Proof.
  induction d as [|[k0 v0] d IH]; simpl; intros Hget Hneq.
  - destruct (String.eqb_spec k k'); [contradiction | reflexivity].
  - destruct (String.eqb_spec k0 k') as [-> | Hk0]; [discriminate |].
    destruct (String.eqb_spec k0 k) as [-> | Hk]; simpl.
    + destruct (String.eqb_spec k k'); [contradiction | exact Hget].
    + destruct (String.eqb_spec k0 k'); [contradiction | now apply IH].
Qed.

Lemma dict_set_head {V : Type} (d : dict V) (k : string) (v : V) :
  d <> [] -> hd_error (map fst (dict_set d k v)) = hd_error (map fst d).
Proof.
  destruct d as [|[k0 v0] d]; [congruence |]. intros _. simpl.
  destruct (String.eqb k0 k); reflexivity.
Qed.

Lemma dict_set_nonempty {V : Type} (d : dict V) (k : string) (v : V) :
  dict_set d k v <> [].
Proof.
  destruct d as [|[k0 v0] d]; simpl; [discriminate |].
  destruct (String.eqb k0 k); discriminate.
Qed.

Lemma dict_set_Forall {V : Type} (Q : string * V -> Prop)
    (d : dict V) (k : string) (v : V) :
  Forall Q d -> Q (k, v) -> (forall k0 v0, Q (k0, v0) -> k0 = k -> Q (k0, v)) ->
  Forall Q (dict_set d k v).
Proof.
  intros Hd Hkv Hrepl. induction Hd as [|[k0 v0] d Hx Hd IH]; simpl.
  - now constructor.
  - destruct (String.eqb_spec k0 k) as [Heq | Hneq].
    + constructor; [now apply (Hrepl k0 v0) | exact Hd].
    + now constructor.
Qed.

(** Every item of the table under construction is a page of the
    navigation, kept under its own hash. *)
Let item_ok (pages : list Page) (item : string * Page) : Prop :=
  fst item = _script_hash calc_md5 (snd item) /\ In (snd item) pages.

Lemma fold_items (pages rest : list Page) (page_dict : dict Page) :
  Forall (item_ok pages) page_dict ->
  incl rest pages ->
  Forall (item_ok pages) (fold_left step rest page_dict).
Proof.
  revert page_dict. induction rest as [|p rest IH]; simpl; intros d Hd Hincl.
  - exact Hd.
  - apply IH.
    + apply dict_set_Forall.
      * exact Hd.
      * split; [reflexivity | apply Hincl; now left].
      * intros k0 v0 _ ->. split; [reflexivity | apply Hincl; now left].
    + intros q Hq. apply Hincl. now right.
Qed.

Lemma fold_head (rest : list Page) (page_dict : dict Page) :
  page_dict <> [] ->
  fold_left step rest page_dict <> []
  /\ hd_error (map fst (fold_left step rest page_dict))
     = hd_error (map fst page_dict).
Proof.
  revert page_dict. induction rest as [|p rest IH]; simpl; intros d Hd.
  - now split.
  - destruct (IH (step d p) (dict_set_nonempty d _ p)) as (Hne & Hhd).
    split; [exact Hne |]. rewrite Hhd. now apply dict_set_head.
Qed.

Lemma fold_get_None (rest : list Page) (page_dict : dict Page) (k : string) :
  dict_get page_dict k = None ->
  (forall p, In p rest -> _script_hash calc_md5 p <> k) ->
  dict_get (fold_left step rest page_dict) k = None.
Proof.
  revert page_dict. induction rest as [|p rest IH]; simpl; intros d Hd Hrest.
  - exact Hd.
  - apply IH.
    + apply dict_get_set_None; [exact Hd | apply Hrest; now left].
    + intros q Hq. apply Hrest. now right.
Qed.

(** C7, as amended: when the navigation has at least one page and none of
    its pages has the hash of the current page, [navigation] does not
    raise: it prints the diagnostic and returns the first entry of the
    table it has built, which is a page of the navigation with the hash of
    its first page. *)
Theorem navigation_falls_back
    (pages : pages_arg) (position : position_arg)
    (ctx : ScriptRunContext) (out : list string) :
  let table :=
    match pages with
    | PagesList pages => [("", pages)]
    | PagesDict pages => pages
    end in
  all_pages table <> [] ->
  (forall p, In p (all_pages table) ->
             _script_hash calc_md5 p <> ctx_page_script_hash ctx) ->
  exists (page : Page) (world : World),
    navigation calc_md5 pages position (Some ctx) out = Ok (page, world)
    /\ stdout world = (out ++ ["falling back to default page"])%list
    /\ hd_error (dict_values (ctx_pages (Pages.ctx world))) = Some page
    /\ In page (all_pages table)
    /\ option_map (_script_hash calc_md5) (hd_error (all_pages table))
       = Some (_script_hash calc_md5 page).
Proof.
  intros table Hpages Habsent.
  unfold navigation. cbv zeta. simpl ctx_page_script_hash.
  match goal with
  | |- context [build_page_dict _ ?t] => change t with table
  end.
  clearbody table.
  unfold build_page_dict.
  destruct (all_pages table) as [|p0 rest] eqn:Hall; [congruence |].
  simpl fold_left.
  assert (Hnone :
    dict_get (fold_left step rest [(_script_hash calc_md5 p0, p0)])
             (ctx_page_script_hash ctx) = None).
  { apply fold_get_None.
    - simpl. destruct (String.eqb_spec (_script_hash calc_md5 p0)
                         (ctx_page_script_hash ctx)) as [Heq | _];
        [| reflexivity].
      exfalso. apply (Habsent p0); [now left | exact Heq].
    - intros q Hq. apply Habsent. now right. }
  fold step. rewrite Hnone.
  destruct (fold_head rest [(_script_hash calc_md5 p0, p0)]) as (Hne & Hhd);
    [discriminate |].
  assert (Hitems :
    Forall (item_ok (p0 :: rest))
           (fold_left step rest [(_script_hash calc_md5 p0, p0)])).
  { apply fold_items.
    - constructor; [| constructor]. split; [reflexivity | now left].
    - intros q Hq. now right. }
  destruct (fold_left step rest [(_script_hash calc_md5 p0, p0)])
    as [|[k page] d]; [congruence |].
  simpl in Hhd. injection Hhd as ->.
  inversion Hitems as [|? ? (Hk & Hin) _]; subst. simpl in Hk, Hin.
  exists page. eexists. split; [reflexivity |]. simpl.
  repeat split; try assumption. now rewrite Hk.
Qed.

End Table.

Lemma navigation_falls_back_witness :
  exists (page : Page) (world : World),
    navigation (fun s => s) (PagesList [Demo.home; Demo.about]) sidebar
      (Some Demo.on_settings) [] = Ok (page, world)
    /\ stdout world = ["falling back to default page"]
    /\ hd_error (dict_values (ctx_pages (Pages.ctx world))) = Some page
    /\ In page [Demo.home; Demo.about]
    /\ Some "/app/home.py" = Some (_script_hash (fun s => s) page).
Proof.
  apply (navigation_falls_back (fun s => s) (PagesList [Demo.home; Demo.about]) sidebar
           Demo.on_settings []).
  - discriminate.
  - intros p [<- | [<- | []]]; discriminate.
Defined.

(** C7, as the claim has it, fails for a navigation without pages: there is
    no entry to fall back to and taking the first one raises
    [IndexError]. *)
Lemma navigation_without_pages_raises :
  navigation (fun s => s) (PagesList []) sidebar (Some Demo.on_settings) []
  = Raise IndexError.
Proof.
  reflexivity.
Qed.

End PagesProperties.

(** * Further properties *)

(** ** Equality of values *)

Module PyFacts.
Import Py.

Section Induction.
Variable P : pyobj -> Prop.
Hypothesis HNone : P VNone.
Hypothesis HBool : forall b, P (VBool b).
Hypothesis HInt : forall n, P (VInt n).
Hypothesis HStr : forall s, P (VStr s).
Hypothesis HList : forall xs, Forall P xs -> P (VList xs).
Hypothesis HTuple : forall xs, Forall P xs -> P (VTuple xs).
Hypothesis HSet : forall xs, Forall P xs -> P (VSet xs).

(** Induction over a value and the values it holds. *)
Fixpoint pyobj_nested_ind (v : pyobj) : P v :=
  let all :=
    fix all (xs : list pyobj) : Forall P xs :=
      match xs with
      | [] => Forall_nil P
      | x :: xs' => Forall_cons x (pyobj_nested_ind x) (all xs')
      end in
  match v with
  | VNone => HNone
  | VBool b => HBool b
  | VInt n => HInt n
  | VStr s => HStr s
  | VList xs => HList xs (all xs)
  | VTuple xs => HTuple xs (all xs)
  | VSet xs => HSet xs (all xs)
  end.

End Induction.

Lemma list_eqb_refl (xs : list pyobj) :
  Forall (fun x => py_eq x x = true) xs -> list_eqb py_eq xs xs = true.
Proof.
  induction 1 as [|x xs Hx _ IH]; simpl; [reflexivity |].
  now rewrite Hx, IH.
Qed.

Lemma subset_refl (xs ys : list pyobj) :
  Forall (fun x => py_eq x x = true) xs ->
  incl xs ys ->
  forallb (fun x => existsb (fun y => py_eq x y) ys) xs = true.
Proof.
  induction 1 as [|x xs Hx _ IH]; simpl; intros Hincl; [reflexivity |].
  apply andb_true_intro. split.
  - apply existsb_exists. exists x. split; [apply Hincl; now left | exact Hx].
  - apply IH. intros y Hy. apply Hincl. now right.
Qed.

Lemma superset_refl (xs ys : list pyobj) :
  Forall (fun x => py_eq x x = true) xs ->
  incl xs ys ->
  forallb (fun y => existsb (fun x => py_eq x y) ys) xs = true.
Proof.
  induction 1 as [|x xs Hx _ IH]; simpl; intros Hincl; [reflexivity |].
  apply andb_true_intro. split.
  - apply existsb_exists. exists x. split; [apply Hincl; now left | exact Hx].
  - apply IH. intros y Hy. apply Hincl. now right.
Qed.

(** [v == v] for every value. *)
Lemma py_eq_refl (v : pyobj) : py_eq v v = true.
Proof.
  induction v using pyobj_nested_ind; simpl.
  - reflexivity.
  - apply Bool.eqb_reflx.
  - apply Z.eqb_refl.
  - apply String.eqb_refl.
  - now apply list_eqb_refl.
  - now apply list_eqb_refl.
  - rewrite subset_refl, superset_refl; auto using incl_refl.
Qed.

(** An item of a sequence is [in] it. *)
Lemma py_in_nth (opt : list pyobj) (n : nat) (o : pyobj) :
  nth_error opt n = Some o -> py_in o opt = true.
Proof.
  intros Hnth. apply existsb_exists. exists o. split.
  - eapply nth_error_In. exact Hnth.
  - apply py_eq_refl.
Qed.

End PyFacts.

(** ** More on the option normalizer *)

Module NormalizerExtras.
Import Py OptionsSelectorUtils Spec Terms.

Lemma index_from_range (opt : list pyobj) (x : pyobj) (k i : Z) :
  index_from k opt x = Ok i -> k <= i < k + Z.of_nat (List.length opt).
Proof.
  revert k. induction opt as [|o opt IH]; simpl; intros k Hidx.
  - discriminate.
  - destruct (py_eq o x).
    + injection Hidx as <-. lia.
    + apply IH in Hidx. lia.
Qed.

Lemma index_comprehension_range (opt values : list pyobj) (indices : list Z) :
  mapM (fun value => py_index opt value) values = Ok indices ->
  Forall (position_of opt) indices /\ List.length indices = List.length values.
Proof.
  revert indices. induction values as [|v values IH]; simpl; intros indices Hmap.
  - injection Hmap as <-. split; [constructor | reflexivity].
  - destruct (py_index opt v) as [i|e] eqn:Hi; simpl in Hmap; [| discriminate].
    destruct (mapM (fun value => py_index opt value) values) as [rest|e];
      simpl in Hmap; [| discriminate].
    injection Hmap as <-. destruct (IH rest eq_refl) as (Hall & Hlen).
    split.
    + constructor; [| exact Hall].
      apply index_from_range in Hi. unfold position_of. lia.
    + simpl. now rewrite Hlen.
Qed.

Lemma membership_loop_Ok (opt values : list pyobj) :
  forM_ (fun value =>
           if negb (py_in value opt)
           then Raise (StreamlitAPIException (invalid_default_message value))
           else Ok tt) values = Ok tt ->
  Forall (fun x => py_in x opt = true) values.
Proof.
  induction values as [|v values IH]; simpl; intros Hloop; [constructor |].
  destruct (py_in v opt) eqn:Hv; simpl in Hloop; [| discriminate].
  constructor; [exact Hv | now apply IH].
Qed.

(** The membership loop raises for the first value that is no option. *)
Lemma membership_loop_first (opt values : list pyobj) (e : exn) :
  forM_ (fun value =>
           if negb (py_in value opt)
           then Raise (StreamlitAPIException (invalid_default_message value))
           else Ok tt) values = Raise e
  <-> exists (before : list pyobj) (x : pyobj) (after : list pyobj),
        values = (before ++ x :: after)%list
        /\ Forall (fun v => py_in v opt = true) before
        /\ py_in x opt = false
        /\ e = StreamlitAPIException (invalid_default_message x).
Proof.
  split.
  - induction values as [|v values IH]; simpl; intros Hloop; [discriminate |].
    destruct (py_in v opt) eqn:Hv; simpl in Hloop.
    + destruct (IH Hloop) as (before & x & after & -> & Hall & Hx & He).
      exists (v :: before), x, after. repeat split; try assumption.
      now constructor.
    + injection Hloop as <-. exists [], v, values. repeat split; auto.
  - intros (before & x & after & -> & Hall & Hx & ->).
    induction Hall as [|v before Hv _ IH]; simpl.
    + now rewrite Hx.
    + rewrite Hv. simpl. exact IH.
Qed.

(** X1: the indices [_check_and_convert_to_indices] returns are positions
    of the options, whatever the shape of the default; for a default that
    is a list there is one index per value. *)
Theorem default_indices_are_positions
    (opt : list pyobj) (default_values : pyobj) (indices : list Z) :
  _check_and_convert_to_indices opt default_values = Ok (Some indices) ->
  Forall (position_of opt) indices
  /\ (forall xs, default_values = VList xs ->
                 List.length indices = List.length xs).
Proof.
  unfold _check_and_convert_to_indices.
  destruct (is_none default_values && negb (py_in VNone opt)); [discriminate |].
  intros Hcheck.
  apply RegistrationProperties.bind_Ok in Hcheck.
  destruct Hcheck as (values & Hvalues & Hcheck).
  apply RegistrationProperties.bind_Ok in Hcheck.
  destruct Hcheck as (u & _ & Hcheck).
  apply RegistrationProperties.bind_Ok in Hcheck.
  destruct Hcheck as (indices' & Hmap & Hcheck).
  injection Hcheck as <-.
  destruct (index_comprehension_range opt values indices' Hmap) as (Hall & Hlen).
  split; [exact Hall |].
  intros xs ->. injection Hvalues as ->. exact Hlen.
Qed.

Lemma default_indices_are_positions_witness :
  Forall (position_of [VStr "a"; VStr "b"; VStr "a"]) [1; 0]
  /\ (forall xs, VTuple [VStr "b"; VStr "a"] = VList xs ->
                 List.length [1; 0] = List.length xs).
Proof.
  apply (default_indices_are_positions [VStr "a"; VStr "b"; VStr "a"]
           (VTuple [VStr "b"; VStr "a"]) [1; 0]).
  reflexivity.
Defined.

(** X2: a default given as a list makes [_check_and_convert_to_indices]
    raise exactly when one of its values is no option.  The exception is
    then the invalid-default exception that quotes the first such value;
    the [ValueError] of [index] never escapes, because the membership loop
    has run first. *)
Theorem list_default_errors (opt xs : list pyobj) (e : exn) :
  _check_and_convert_to_indices opt (VList xs) = Raise e
  <-> exists (before : list pyobj) (x : pyobj) (after : list pyobj),
        xs = (before ++ x :: after)%list
        /\ Forall (fun v => py_in v opt = true) before
        /\ py_in x opt = false
        /\ e = StreamlitAPIException (invalid_default_message x).
Proof.
  rewrite <- membership_loop_first.
  unfold _check_and_convert_to_indices. simpl.
  destruct (forM_ _ xs) as [[]|e'] eqn:Hloop; simpl.
  - apply membership_loop_Ok in Hloop.
    destruct (SerdeProperties.index_comprehension opt xs Hloop)
      as (indices & Hmap & _).
    rewrite Hmap. simpl. split; discriminate.
  - split; intros He; injection He as <-; reflexivity.
Qed.

Lemma list_default_errors_witness :
  _check_and_convert_to_indices [VStr "a"; VStr "b"]
    (VList [VStr "a"; VStr "c"; VStr "d"])
  = Raise (StreamlitAPIException (invalid_default_message (VStr "c"))).
Proof.
  apply (proj2 (list_default_errors [VStr "a"; VStr "b"]
                  [VStr "a"; VStr "c"; VStr "d"]
                  (StreamlitAPIException (invalid_default_message (VStr "c"))))).
  exists [VStr "a"], (VStr "c"), [VStr "d"].
  split; [reflexivity |]. split; [| split; reflexivity].
  constructor; [reflexivity | constructor].
Defined.

(** X3: a default that is no container and is one of the options is
    converted to a single index, the first position of the options that
    compares equal to it. *)
Theorem scalar_default_present (opt : list pyobj) (default_values : pyobj) :
  is_scalar default_values = true ->
  py_in default_values opt = true ->
  exists i,
    _check_and_convert_to_indices opt default_values = Ok (Some [i])
    /\ first_position opt default_values i.
Proof.
  intros Hscalar Hin.
  destruct (SerdeProperties.py_index_first opt default_values Hin)
    as (i & Hi & Hpos).
  exists i. split; [| exact Hpos].
  unfold _check_and_convert_to_indices.
  destruct default_values; try discriminate; simpl; rewrite Hin; simpl;
    rewrite ?andb_false_r; simpl; rewrite ?Hin; simpl; rewrite Hi;
    reflexivity.
Qed.

Lemma scalar_default_present_witness :
  exists i,
    _check_and_convert_to_indices [VStr "tea"; VInt 1; VStr "tea"; VBool true]
      (VBool true) = Ok (Some [i])
    /\ first_position [VStr "tea"; VInt 1; VStr "tea"; VBool true]
         (VBool true) i.
Proof.
  apply (scalar_default_present
           [VStr "tea"; VInt 1; VStr "tea"; VBool true] (VBool true));
    reflexivity.
Defined.

(** X4: a default that is a non-empty string and no option is read as the
    list of its characters. *)
Theorem string_default_absent_is_split (opt : list pyobj) (s : string) :
  s <> "" ->
  py_in (VStr s) opt = false ->
  _check_and_convert_to_indices opt (VStr s)
  = _check_and_convert_to_indices opt (VList (chars s)).
Proof.
  intros Hs Hin. unfold _check_and_convert_to_indices. simpl.
  rewrite Hin. apply String.eqb_neq in Hs. rewrite Hs. reflexivity.
Qed.

Lemma string_default_absent_is_split_witness :
  _check_and_convert_to_indices [VStr "a"; VStr "b"] (VStr "ba")
  = _check_and_convert_to_indices [VStr "a"; VStr "b"]
      (VList [VStr "b"; VStr "a"]).
Proof.
  apply (string_default_absent_is_split [VStr "a"; VStr "b"] "ba").
  - discriminate.
  - reflexivity.
Defined.

(** X5: a default that is [False], [0] or the empty string and no option
    raises the invalid-default exception quoting it. *)
Theorem falsy_default_absent (opt : list pyobj) (default_values : pyobj) :
  is_scalar default_values = true ->
  default_values <> VNone ->
  truthy default_values = false ->
  py_in default_values opt = false ->
  _check_and_convert_to_indices opt default_values
  = Raise (StreamlitAPIException (invalid_default_message default_values)).
Proof.
  intros Hscalar Hnone Hfalsy Hin. unfold _check_and_convert_to_indices.
  destruct default_values; try discriminate; try congruence;
    simpl in *; try subst; rewrite ?Hfalsy; simpl; rewrite Hin; reflexivity.
Qed.

Lemma falsy_default_absent_witness :
  _check_and_convert_to_indices [VInt 1; VInt 2; VInt 3] (VInt 0)
  = Raise (StreamlitAPIException
             ("The default value '0' is not part of the options. "
              ++ "Please make sure that every default values also exists in the options.")).
Proof.
  apply (falsy_default_absent [VInt 1; VInt 2; VInt 3] (VInt 0)).
  - reflexivity.
  - discriminate.
  - reflexivity.
  - reflexivity.
Defined.

Lemma mapM_length {A B : Type} (f : A -> result B) (xs : list A) (ys : list B) :
  mapM f xs = Ok ys -> List.length ys = List.length xs.
Proof.
  revert ys. induction xs as [|x xs IH]; simpl; intros ys Hmap.
  - now injection Hmap as <-.
  - destruct (f x); simpl in Hmap; [| discriminate].
    destruct (mapM f xs); simpl in Hmap; [| discriminate].
    injection Hmap as <-. simpl. now rewrite (IH _ eq_refl).
Qed.

Lemma mapM_total {A B : Type} (g : A -> B) (xs : list A) :
  mapM (fun x => Ok (g x)) xs = Ok (map g xs).
Proof.
  induction xs as [|x xs IH]; simpl; [reflexivity | now rewrite IH].
Qed.

Section TransformOptions.
Context `{F : Framework}.
Variables (options default : pyobj)
          (format_func : option (pyobj -> result formatted)).

(** What a call of [transform_options] that returns went through. *)
Lemma transform_options_Ok
    (indexable_options : list pyobj) (formatted_options : list formatted)
    (default_indices : list Z) :
  transform_options options default format_func
  = Ok (indexable_options, formatted_options, default_indices) ->
  ensure_indexable options = Ok indexable_options
  /\ check_python_comparable indexable_options = Ok tt
  /\ (exists converted,
        _check_and_convert_to_indices indexable_options default = Ok converted
        /\ default_indices
           = match converted with Some indices => indices | None => [] end)
  /\ mapM (match format_func with
           | Some format_func => format_func
           | None => fun option => Ok (_default_format_func option)
           end) indexable_options = Ok formatted_options.
Proof.
  unfold transform_options. intros Hrun.
  apply RegistrationProperties.bind_Ok in Hrun.
  destruct Hrun as (io & Hio & Hrun).
  apply RegistrationProperties.bind_Ok in Hrun.
  destruct Hrun as ([] & Hcmp & Hrun).
  apply RegistrationProperties.bind_Ok in Hrun.
  destruct Hrun as (converted & Hconv & Hrun).
  apply RegistrationProperties.bind_Ok in Hrun.
  destruct Hrun as (fo & Hfo & Hrun).
  injection Hrun as <- <- <-. eauto 6.
Qed.

(** X6: the options, their labels and the default indices line up: there
    is one label per option, in the order of the options, and every default
    index is a position of the options. *)
Theorem transform_options_shape
    (indexable_options : list pyobj) (formatted_options : list formatted)
    (default_indices : list Z) :
  transform_options options default format_func
  = Ok (indexable_options, formatted_options, default_indices) ->
  ensure_indexable options = Ok indexable_options
  /\ List.length formatted_options = List.length indexable_options
  /\ Forall (position_of indexable_options) default_indices.
Proof.
  intros Hrun.
  destruct (transform_options_Ok _ _ _ Hrun)
    as (Hio & _ & (converted & Hconv & ->) & Hfo).
  split; [exact Hio |]. split; [exact (mapM_length _ _ _ Hfo) |].
  destruct converted as [indices|]; [| constructor].
  exact (proj1 (default_indices_are_positions _ _ _ Hconv)).
Qed.

(** X7: without a formatting function every label is [str] of its
    option. *)
Theorem transform_options_default_labels
    (indexable_options : list pyobj) (formatted_options : list formatted)
    (default_indices : list Z) :
  format_func = None ->
  transform_options options default format_func
  = Ok (indexable_options, formatted_options, default_indices) ->
  formatted_options = map (fun option => FStr (py_str option)) indexable_options.
Proof.
  intros Hnone Hrun.
  destruct (transform_options_Ok _ _ _ Hrun) as (_ & _ & _ & Hfo).
  rewrite Hnone in Hfo.
  unfold _default_format_func in Hfo. rewrite mapM_total in Hfo.
  now injection Hfo as <-.
Qed.

(** X8: a default [None] that is no option gives no default index. *)
Theorem transform_options_no_default
    (indexable_options : list pyobj) (formatted_options : list formatted)
    (default_indices : list Z) :
  default = VNone ->
  py_in VNone indexable_options = false ->
  transform_options options default format_func
  = Ok (indexable_options, formatted_options, default_indices) ->
  default_indices = [].
Proof.
  intros Hdefault Hnone Hrun.
  destruct (transform_options_Ok _ _ _ Hrun)
    as (_ & _ & (converted & Hconv & ->) & _).
  rewrite Hdefault in Hconv.
  unfold _check_and_convert_to_indices in Hconv. simpl in Hconv.
  rewrite Hnone in Hconv. simpl in Hconv. now injection Hconv as <-.
Qed.

(** X9: the first run's value is the default.  For a default that is a
    list, the serde built from the result of [transform_options]
    deserializes "no value" to a list that equals the default. *)
Theorem default_round_trip
    (indexable_options : list pyobj) (formatted_options : list formatted)
    (default_indices : list Z) (values : list pyobj) (widget_id : string) :
  default = VList values ->
  transform_options options default format_func
  = Ok (indexable_options, formatted_options, default_indices) ->
  exists r,
    MultiSelectSerde.deserialize
      {| MultiSelectSerde.options := indexable_options;
         MultiSelectSerde.default_value := default_indices |}
      None widget_id = Ok r
    /\ py_eq (VList r) (VList values) = true.
Proof.
  intros Hdefault Hrun.
  destruct (transform_options_Ok _ _ _ Hrun)
    as (_ & _ & (converted & Hconv & ->) & _).
  rewrite Hdefault in Hconv.
  assert (Hin : Forall (fun x => py_in x indexable_options = true) values).
  { unfold _check_and_convert_to_indices in Hconv. simpl in Hconv.
    apply RegistrationProperties.bind_Ok in Hconv.
    destruct Hconv as ([] & Hloop & _).
    now apply membership_loop_Ok. }
  destruct (SerdeProperties.convert_list indexable_options values Hin)
    as (indices & Hconv' & Hall).
  rewrite Hconv in Hconv'. injection Hconv' as ->.
  destruct (SerdeProperties.getitem_comprehension _ _ _ Hall) as (r & Hget & Heq).
  exists r. split; [exact Hget | exact Heq].
Qed.

(** X10: [transform_options] reports the first failure in the order of its
    steps: an options argument that cannot be indexed, then options that
    cannot be compared, then a wrong default; the formatting function is
    not reached in any of these cases. *)
Theorem transform_options_first_failure (e : exn) :
  (ensure_indexable options = Raise e ->
   transform_options options default format_func = Raise e)
  /\ (forall indexable_options,
        ensure_indexable options = Ok indexable_options ->
        check_python_comparable indexable_options = Raise e ->
        transform_options options default format_func = Raise e)
  /\ (forall indexable_options,
        ensure_indexable options = Ok indexable_options ->
        check_python_comparable indexable_options = Ok tt ->
        _check_and_convert_to_indices indexable_options default = Raise e ->
        transform_options options default format_func = Raise e).
Proof.
  unfold transform_options. repeat split.
  - intros ->. reflexivity.
  - intros io Hio Hcmp. rewrite Hio. simpl. rewrite Hcmp. reflexivity.
  - intros io Hio Hcmp Hconv. rewrite Hio. simpl. rewrite Hcmp. simpl.
    rewrite Hconv. reflexivity.
Qed.

End TransformOptions.

Section Policies.
Context `{F : Framework}.
Variables (dg : DeltaGenerator) (key : option string)
          (on_change : option WidgetCallback) (default : pyobj).

(** X11: the policy gate passes exactly when its four checks pass: the
    fragment path, the cache replay, the callback and the session state
    rules, the last with writes allowed. *)
Theorem policies_pass_together :
  check_multiselect_policies dg key on_change default = Ok tt
  <-> check_fragment_path_policy dg = Ok tt
      /\ check_cache_replay_rules = Ok tt
      /\ check_callback_rules dg on_change = Ok tt
      /\ check_session_state_rules default key true = Ok tt.
Proof.
  unfold check_multiselect_policies. split.
  - intros Hrun.
    destruct (check_fragment_path_policy dg) as [[]|]; [| discriminate].
    destruct check_cache_replay_rules as [[]|]; [| discriminate].
    destruct (check_callback_rules dg on_change) as [[]|]; [| discriminate].
    simpl in Hrun. auto.
  - intros (H1 & H2 & H3 & H4). rewrite H1. simpl. rewrite H2. simpl.
    rewrite H3. simpl. exact H4.
Qed.

End Policies.

Lemma transform_options_shape_witness :
  @ensure_indexable (Demo.framework Demo.first_run Demo.no_coercion)
    (VTuple Demo.one_to_five) = Ok Demo.one_to_five
  /\ List.length [FStr "1"; FStr "2"; FStr "3"; FStr "4"; FStr "5"]
     = List.length Demo.one_to_five
  /\ Forall (position_of Demo.one_to_five) [2; 0].
Proof.
  apply (transform_options_shape
           (F := Demo.framework Demo.first_run Demo.no_coercion)
           (VTuple Demo.one_to_five) (VList [VInt 3; VInt 1]) None).
  reflexivity.
Defined.

Lemma transform_options_default_labels_witness :
  [FStr "None"; FStr "tea"; FStr "True"; FStr "(1, 'a')"]
  = map (fun option => FStr (py_str option))
        [VNone; VStr "tea"; VBool true; VTuple [VInt 1; VStr "a"]].
Proof.
  apply (transform_options_default_labels
           (F := Demo.framework Demo.first_run Demo.no_coercion)
           (VList [VNone; VStr "tea"; VBool true; VTuple [VInt 1; VStr "a"]])
           (VList []) None _ _ []).
  - reflexivity.
  - reflexivity.
Defined.

Lemma transform_options_no_default_witness :
  @nil Z = [].
Proof.
  apply (transform_options_no_default
           (F := Demo.framework Demo.first_run Demo.no_coercion)
           (VList Demo.one_to_three) VNone None
           Demo.one_to_three [FStr "1"; FStr "2"; FStr "3"] []);
    reflexivity.
Defined.

Lemma default_round_trip_witness :
  exists r,
    MultiSelectSerde.deserialize
      {| MultiSelectSerde.options := Demo.one_to_five;
         MultiSelectSerde.default_value := [2; 0] |}
      None "w" = Ok r
    /\ py_eq (VList r) (VList [VInt 3; VBool true]) = true.
Proof.
  apply (default_round_trip
           (F := Demo.framework Demo.first_run Demo.no_coercion)
           (VList Demo.one_to_five) (VList [VInt 3; VBool true]) None
           Demo.one_to_five
           [FStr "1"; FStr "2"; FStr "3"; FStr "4"; FStr "5"] [2; 0]
           [VInt 3; VBool true] "w");
    reflexivity.
Defined.

Lemma transform_options_first_failure_witness :
  transform_options (F := Demo.framework Demo.first_run Demo.no_coercion)
    (VList Demo.one_to_three) (VList [VInt 5]) None
  = Raise (StreamlitAPIException (invalid_default_message (VInt 5))).
Proof.
  apply (proj2 (proj2 (transform_options_first_failure
                         (F := Demo.framework Demo.first_run Demo.no_coercion)
                         (VList Demo.one_to_three) (VList [VInt 5]) None
                         (StreamlitAPIException
                            (invalid_default_message (VInt 5)))))
           Demo.one_to_three);
    reflexivity.
Defined.

End NormalizerExtras.

(** ** More on the serde of a multi-select *)

Module SerdeExtras.
Import Py OptionsSelectorUtils Spec Terms.

Lemma getitem_inside (opt : list pyobj) (i : Z) :
  index_of opt i ->
  exists o,
    py_getitem opt i = Ok o
    /\ nth_error opt (Z.to_nat (i mod Z.of_nat (List.length opt))) = Some o.
Proof.
  unfold index_of, py_getitem. cbv zeta. intros Hi.
  set (n := Z.of_nat (List.length opt)) in *.
  assert (Hmod : i mod n = if i <? 0 then i + n else i).
  { destruct (Z.ltb_spec i 0).
    - rewrite <- (Z.mod_small (i + n) n) by lia.
      rewrite <- (Z.mul_1_l n) at 2. now rewrite Z.mod_add by lia.
    - apply Z.mod_small. lia. }
  rewrite <- Hmod.
  assert (Hrange : 0 <= i mod n < n) by (apply Z.mod_pos_bound; lia).
  destruct (Z.ltb_spec (i mod n) 0); [lia |].
  destruct (Z.leb_spec n (i mod n)); [lia |]. simpl.
  destruct (nth_error opt (Z.to_nat (i mod n))) as [o|] eqn:Hnth.
  - exists o. now split.
  - apply nth_error_None in Hnth. unfold n in *. lia.
Qed.

Lemma getitem_Ok (opt : list pyobj) (i : Z) (o : pyobj) :
  py_getitem opt i = Ok o -> index_of opt i.
Proof.
  unfold index_of, py_getitem. cbv zeta.
  set (n := Z.of_nat (List.length opt)).
  destruct (Z.ltb_spec i 0).
  - destruct (Z.ltb_spec (i + n) 0); simpl; [discriminate |].
    destruct (Z.leb_spec n (i + n)); simpl; [discriminate |]. lia.
  - destruct (Z.ltb_spec i 0); [lia |]. simpl.
    destruct (Z.leb_spec n i); simpl; [discriminate |]. lia.
Qed.

Lemma getitem_Raise (opt : list pyobj) (i : Z) (e : exn) :
  py_getitem opt i = Raise e -> e = IndexError.
Proof.
  unfold py_getitem. cbv zeta.
  destruct (_ || _); [congruence |].
  destruct (nth_error _ _); congruence.
Qed.

Lemma getitem_comprehension_Ok (opt : list pyobj) (indices : list Z) (r : list pyobj) :
  mapM (fun i => py_getitem opt i) indices = Ok r ->
  Forall (index_of opt) indices.
Proof.
  revert r. induction indices as [|i indices IH]; simpl; intros r Hmap.
  - constructor.
  - destruct (py_getitem opt i) as [o|e] eqn:Hget; simpl in Hmap; [| discriminate].
    destruct (mapM (fun i => py_getitem opt i) indices) as [r'|e] eqn:Hrest;
      simpl in Hmap; [| discriminate].
    constructor; [exact (getitem_Ok _ _ _ Hget) | exact (IH r' eq_refl)].
Qed.

Lemma getitem_comprehension_Raise (opt : list pyobj) (indices : list Z) (e : exn) :
  mapM (fun i => py_getitem opt i) indices = Raise e -> e = IndexError.
Proof.
  induction indices as [|i indices IH]; simpl; intros Hmap; [discriminate |].
  destruct (py_getitem opt i) as [o|e'] eqn:Hget; simpl in Hmap.
  - destruct (mapM (fun i => py_getitem opt i) indices) as [r'|e'];
      simpl in Hmap; [discriminate |].
    injection Hmap as <-. now apply IH.
  - injection Hmap as <-. exact (getitem_Raise _ _ _ Hget).
Qed.

Lemma getitem_comprehension_inside (opt : list pyobj) (indices : list Z) :
  Forall (index_of opt) indices ->
  exists r,
    mapM (fun i => py_getitem opt i) indices = Ok r
    /\ Forall2 (fun i o =>
                  nth_error opt (Z.to_nat (i mod Z.of_nat (List.length opt)))
                  = Some o) indices r.
Proof.
  induction 1 as [|i indices Hi _ (r & Hmap & Hall)]; simpl.
  - exists []. split; [reflexivity | constructor].
  - destruct (getitem_inside opt i Hi) as (o & Hget & Hnth).
    exists (o :: r). rewrite Hget. simpl. rewrite Hmap. simpl.
    split; [reflexivity | now constructor].
Qed.

(** X12: [deserialize] accepts exactly the indices from [-n] to [n - 1] for
    [n] options, a negative index counting from the end; it returns the
    options at these indices, in their order, and raises [IndexError] as
    soon as one index is out of these bounds. *)
Theorem deserialize_bounds
    (self : MultiSelectSerde.t) (indices : list Z) (widget_id : string) :
  (Forall (index_of (MultiSelectSerde.options self)) indices ->
   exists r,
     MultiSelectSerde.deserialize self (Some indices) widget_id = Ok r
     /\ Forall2 (fun i o =>
                   nth_error (MultiSelectSerde.options self)
                     (Z.to_nat
                        (i mod Z.of_nat
                                 (List.length (MultiSelectSerde.options self))))
                   = Some o) indices r)
  /\ (~ Forall (index_of (MultiSelectSerde.options self)) indices ->
      MultiSelectSerde.deserialize self (Some indices) widget_id
      = Raise IndexError).
Proof.
  unfold MultiSelectSerde.deserialize. split.
  - apply getitem_comprehension_inside.
  - intros Hout.
    destruct (mapM (fun i => py_getitem (MultiSelectSerde.options self) i)
                indices) as [r|e] eqn:Hmap.
    + exfalso. apply Hout. exact (getitem_comprehension_Ok _ _ _ Hmap).
    + now rewrite (getitem_comprehension_Raise _ _ _ Hmap).
Qed.

Lemma deserialize_bounds_witness :
  (exists r,
     MultiSelectSerde.deserialize
       {| MultiSelectSerde.options := [VStr "a"; VStr "b"; VStr "c"];
          MultiSelectSerde.default_value := [] |}
       (Some [-1; 0; -3]) "" = Ok r
     /\ Forall2 (fun i o =>
                   nth_error [VStr "a"; VStr "b"; VStr "c"]
                     (Z.to_nat (i mod 3)) = Some o) [-1; 0; -3] r)
  /\ MultiSelectSerde.deserialize
       {| MultiSelectSerde.options := [VStr "a"; VStr "b"; VStr "c"];
          MultiSelectSerde.default_value := [] |}
       (Some [0; 3]) "" = Raise IndexError.
Proof.
  split.
  - apply (proj1 (deserialize_bounds
                    {| MultiSelectSerde.options := [VStr "a"; VStr "b"; VStr "c"];
                       MultiSelectSerde.default_value := [] |}
                    [-1; 0; -3] "")).
    repeat constructor; simpl; lia.
  - apply (proj2 (deserialize_bounds
                    {| MultiSelectSerde.options := [VStr "a"; VStr "b"; VStr "c"];
                       MultiSelectSerde.default_value := [] |}
                    [0; 3] "")).
    intros Hall. inversion Hall as [|? ? _ Hrest]; subst.
    inversion Hrest as [|? ? H3 _]; subst.
    unfold index_of in H3. simpl in H3. lia.
Defined.

Lemma positions_agree
    (opt : list pyobj) (indices indices' : list Z) (r : list pyobj) :
  distinct_options opt ->
  Forall (position_of opt) indices ->
  Forall2 (fun i o =>
             nth_error opt (Z.to_nat (i mod Z.of_nat (List.length opt)))
             = Some o) indices r ->
  Forall2 (first_position opt) r indices' ->
  indices' = indices.
Proof.
  intros Hdistinct Hpos Hget. revert indices'.
  induction Hget as [|i o indices r Hnth _ IH]; intros indices' Hfirst.
  - now inversion Hfirst.
  - inversion Hfirst as [|? i' ? rest (n & -> & (o' & Hn & Heq) & _) Hrest];
      subst.
    inversion Hpos as [|? ? Hi Hpos']; subst.
    rewrite (IH Hpos' rest Hrest). f_equal.
    unfold position_of in Hi. rewrite Z.mod_small in Hnth by lia.
    rewrite (Hdistinct _ _ _ _ Hn Hnth Heq). lia.
Qed.

(** X13: when no two options compare equal, the indices survive the round
    trip: deserializing positions of the options and serializing the values
    again gives the same positions. *)
Theorem index_round_trip
    (opt : list pyobj) (default_value : list Z) (indices : list Z)
    (widget_id : string) :
  distinct_options opt ->
  Forall (position_of opt) indices ->
  let serde :=
    {| MultiSelectSerde.options := opt;
       MultiSelectSerde.default_value := default_value |} in
  exists r,
    MultiSelectSerde.deserialize serde (Some indices) widget_id = Ok r
    /\ MultiSelectSerde.serialize serde (VList r) = Ok indices.
Proof.
  intros Hdistinct Hpos serde.
  assert (Hinside : Forall (index_of opt) indices).
  { eapply Forall_impl; [| exact Hpos]. unfold position_of, index_of. lia. }
  destruct (getitem_comprehension_inside opt indices Hinside) as (r & Hget & Hnth).
  exists r. split; [exact Hget |].
  assert (Hin : Forall (fun x => py_in x opt = true) r).
  { clear Hget. induction Hnth as [|i o indices r Ho _ IH]; constructor.
    - exact (PyFacts.py_in_nth _ _ _ Ho).
    - inversion Hpos; inversion Hinside; subst. now apply IH. }
  destruct (SerdeProperties.convert_list opt r Hin) as (indices' & Hconv & Hfirst).
  unfold MultiSelectSerde.serialize. simpl. rewrite Hconv. simpl.
  now rewrite (positions_agree opt indices indices' r Hdistinct Hpos Hnth Hfirst).
Qed.

Lemma index_round_trip_witness :
  exists r,
    MultiSelectSerde.deserialize
      {| MultiSelectSerde.options := [VStr "a"; VStr "b"; VStr "c"];
         MultiSelectSerde.default_value := [] |}
      (Some [2; 0; 2]) "" = Ok r
    /\ MultiSelectSerde.serialize
         {| MultiSelectSerde.options := [VStr "a"; VStr "b"; VStr "c"];
            MultiSelectSerde.default_value := [] |}
         (VList r) = Ok [2; 0; 2].
Proof.
  apply (index_round_trip [VStr "a"; VStr "b"; VStr "c"] [] [2; 0; 2] "").
  - intros [|[|[|i]]] [|[|[|j]]] a b Ha Hb Heq; simpl in Ha, Hb;
      try reflexivity;
      try (injection Ha as <-; injection Hb as <-; discriminate);
      try (destruct i; discriminate);
      try (destruct j; discriminate).
  - repeat constructor; unfold position_of; simpl; lia.
Defined.

End SerdeExtras.

(** ** More on registration *)

Module RegistrationExtras.
Import Py OptionsSelectorUtils Spec Terms.

Tactic Notation "step" hyp(H) "as" simple_intropattern(x) simple_intropattern(Hx) :=
  apply RegistrationProperties.bind_Ok in H; destruct H as (x & Hx & H).

Section RegisterWidgetAndEnqueue.
Context `{F : Framework} {P : Type} `{SP : SelectorProto P} {T : Type}.
Variables (dg : DeltaGenerator) (widget_name : string) (proto : P)
          (widget_id : string) (options : pyobj)
          (indexable_options : list pyobj)
          (deserializer : WidgetDeserializer) (serializer : WidgetSerializer)
          (ctx : option ScriptRunContext)
          (on_change_handler : option WidgetCallback)
          (args : option WidgetArgs) (kwargs : option WidgetKwargs)
          (max_selections : option Z) (app_testing_value : T).

(** X14: a registration that returns has handed its message to the delta
    generator once, under the widget's name and after the override was
    written, and has saved the testing value under the widget's identity
    when there is a script context, and only then. *)
Theorem message_is_enqueued_with_its_override
    (out : Outcome pyobj P DeltaGenerator ScriptRunContext) :
  register_widget_and_enqueue dg widget_name proto widget_id options
    indexable_options deserializer serializer ctx on_change_handler args
    kwargs max_selections app_testing_value = Ok out ->
  _enqueue P dg widget_name (message out) = Ok (generator out)
  /\ match ctx with
     | Some ctx =>
         exists ctx',
           save_for_app_testing T ctx widget_id app_testing_value = Ok ctx'
           /\ context out = Some ctx'
     | None => context out = None
     end.
Proof.
  unfold register_widget_and_enqueue. intros Hrun.
  step Hrun as widget_state Hreg.
  step Hrun as n Hcount.
  step Hrun as u Hcheck.
  step Hrun as widget_state' Hcoerce.
  step Hrun as proto' Hproto.
  step Hrun as ctx' Hctx.
  step Hrun as dg' Hdg.
  injection Hrun as <-. simpl. split; [exact Hdg |].
  destruct ctx as [c|].
  - step Hctx as c' Hsave. injection Hctx as <-. eauto.
  - now injection Hctx as <-.
Qed.

(** X15: a changed value that holds something that is no option fails the
    registration.  With the serializer of a [MultiSelectSerde], a value
    that passed the limit and the coercion, is marked as changed and is a
    list whose first value outside the options is [x] makes the call raise
    the invalid-default exception quoting [x]. *)
Theorem changed_value_outside_options
    (default_value : list Z)
    (widget_state widget_state' : RegisterWidgetResult.t) (n : Z)
    (before after : list pyobj) (x : pyobj) :
  serializer
  = MultiSelectSerde.serialize
      {| MultiSelectSerde.options := indexable_options;
         MultiSelectSerde.default_value := default_value |} ->
  register_widget P widget_name proto on_change_handler args kwargs
    deserializer serializer ctx = Ok widget_state ->
  _get_default_count (RegisterWidgetResult.value widget_state) = Ok n ->
  match max_selections with
  | Some m => m = 0 \/ n <= m
  | None => True
  end ->
  (if isinstance_list (RegisterWidgetResult.value widget_state)
   then maybe_coerce_enum_sequence widget_state options indexable_options
   else maybe_coerce_enum widget_state options indexable_options)
  = Ok widget_state' ->
  RegisterWidgetResult.value_changed widget_state' = true ->
  RegisterWidgetResult.value widget_state'
  = VList (before ++ x :: after)%list ->
  Forall (fun y => py_in y indexable_options = true) before ->
  py_in x indexable_options = false ->
  register_widget_and_enqueue dg widget_name proto widget_id options
    indexable_options deserializer serializer ctx on_change_handler args
    kwargs max_selections app_testing_value
  = Raise (StreamlitAPIException (invalid_default_message x)).
Proof.
  intros Hser Hreg Hcount Hmax Hcoerce Hchanged Hvalue Hbefore Hx.
  unfold register_widget_and_enqueue.
  rewrite Hreg. simpl. rewrite Hcount. simpl.
  assert (Hcheck :
    match max_selections with
    | Some max_selections =>
        if negb (max_selections =? 0) && (n >? max_selections)
        then Raise (StreamlitAPIException
                      (_get_over_max_options_message n max_selections))
        else Ok tt
    | None => Ok tt
    end = Ok tt).
  { destruct max_selections as [m|]; [| reflexivity].
    destruct Hmax as [-> | Hle]; [reflexivity |].
    replace (n >? m) with false
      by (symmetry; rewrite Z.gtb_ltb; apply Z.ltb_ge; lia).
    now rewrite andb_false_r. }
  rewrite Hcheck. simpl. rewrite Hcoerce. simpl.
  rewrite Hchanged, Hvalue, Hser.
  unfold MultiSelectSerde.serialize. simpl MultiSelectSerde.options.
  rewrite (NormalizerProperties.list_default_absent
             indexable_options before after x Hbefore Hx).
  reflexivity.
Qed.

End RegisterWidgetAndEnqueue.

Lemma message_is_enqueued_with_its_override_witness :
  exists out,
    Demo.stale_multiselect None = Ok out
    /\ (Ok ([] ++ ["multiselect"])%list = Ok (generator out)
        /\ context out = None).
Proof.
  eexists. split; [reflexivity |].
  refine (message_is_enqueued_with_its_override
            (F := Demo.framework
                    (Demo.session_write (VList [VInt 1; VInt 2; VInt 9]))
                    Demo.drop_stale)
            (P := ButtonGroupProto.t) (T := unit)
            [] "multiselect" ButtonGroupProto.empty "w"
            (VList Demo.one_to_three) Demo.one_to_three
            (fst (ButtonGroup.select_serde Demo.one_to_three [] None None))
            (snd (ButtonGroup.select_serde Demo.one_to_three [] None None))
            None None None None None tt _ _).
  reflexivity.
Defined.

Lemma changed_value_outside_options_witness :
  register_widget_and_enqueue
    (F := Demo.framework
            (Demo.session_write (VList [VInt 1; VInt 2; VInt 9]))
            Demo.no_coercion)
    (T := unit)
    [] "multiselect" ButtonGroupProto.empty "w"
    (VList Demo.one_to_three) Demo.one_to_three
    (fst (ButtonGroup.select_serde Demo.one_to_three [] None None))
    (MultiSelectSerde.serialize
       {| MultiSelectSerde.options := Demo.one_to_three;
          MultiSelectSerde.default_value := [] |})
    None None None None (Some 3) tt
  = Raise (StreamlitAPIException
             ("The default value '9' is not part of the options. "
              ++ "Please make sure that every default values also exists in the options.")).
Proof.
  refine (changed_value_outside_options
            (F := Demo.framework
                    (Demo.session_write (VList [VInt 1; VInt 2; VInt 9]))
                    Demo.no_coercion)
            (P := ButtonGroupProto.t) (T := unit)
            [] "multiselect" ButtonGroupProto.empty "w"
            (VList Demo.one_to_three) Demo.one_to_three
            (fst (ButtonGroup.select_serde Demo.one_to_three [] None None))
            _ None None None None (Some 3) tt []
            Demo.stale_state Demo.stale_state 3
            [VInt 1; VInt 2] [] (VInt 9)
            eq_refl eq_refl eq_refl _ eq_refl eq_refl eq_refl _ eq_refl).
  - right. lia.
  - repeat constructor.
Defined.

End RegistrationExtras.

(** ** More on the button group *)

Module ButtonGroupExtras.
Import Py OptionsSelectorUtils Spec Terms.

Lemma options_extend_Ok
    (formatted_options : list formatted)
    (acc options : list ButtonGroupProto.Option) :
  ButtonGroup.options_extend acc formatted_options = Ok options ->
  exists added,
    formatted_options = map FOption added /\ options = (acc ++ added)%list.
Proof.
  revert acc. induction formatted_options as [|f rest IH]; simpl; intros acc Hext.
  - injection Hext as <-. exists []. now rewrite app_nil_r.
  - destruct f as [s|o]; simpl in Hext; [discriminate |].
    destruct (IH _ Hext) as (added & -> & ->).
    exists (o :: added). split; [reflexivity |].
    now rewrite <- app_assoc.
Qed.

Lemma options_extend_all
    (added acc : list ButtonGroupProto.Option) :
  ButtonGroup.options_extend acc (map FOption added) = Ok (acc ++ added)%list.
Proof.
  revert acc. induction added as [|o added IH]; simpl; intros acc.
  - now rewrite app_nil_r.
  - rewrite IH. now rewrite <- app_assoc.
Qed.

Lemma is_uint32_range (n : Z) :
  ButtonGroup.is_uint32 n = true <-> 0 <= n < 4294967296.
Proof.
  unfold ButtonGroup.is_uint32.
  rewrite andb_true_iff, Z.leb_le, Z.ltb_lt. reflexivity.
Qed.

Lemma assign_repeated_uint32_range (default_values : list Z) :
  forallb ButtonGroup.is_uint32 default_values = true
  <-> Forall (fun n => 0 <= n < 4294967296) default_values.
Proof.
  rewrite forallb_forall, Forall_forall.
  split; intros Hall n Hn; apply is_uint32_range, Hall, Hn.
Qed.

(** The message [_build_proto] returns, field by field. *)
Lemma _build_proto_message
    (widget_id : string) (formatted_options : list formatted)
    (default_values : list Z) (disabled : bool) (current_form_id : string)
    (click_mode : ButtonGroupProto.ClickMode)
    (selection_visualization : ButtonGroupProto.SelectionVisualization)
    (proto : ButtonGroupProto.t) :
  ButtonGroup._build_proto widget_id formatted_options default_values disabled
    current_form_id click_mode selection_visualization = Ok proto ->
  Forall (fun n => 0 <= n < 4294967296) default_values
  /\ formatted_options = map FOption (ButtonGroupProto.options proto)
  /\ proto
     = {| ButtonGroupProto.id := widget_id;
          ButtonGroupProto.default := default_values;
          ButtonGroupProto.form_id := current_form_id;
          ButtonGroupProto.disabled := disabled;
          ButtonGroupProto.click_mode := click_mode;
          ButtonGroupProto.options := ButtonGroupProto.options proto;
          ButtonGroupProto.selection_visualization :=
            selection_visualization;
          ButtonGroupProto.value := [];
          ButtonGroupProto.set_value := false |}.
Proof.
  unfold ButtonGroup._build_proto, ButtonGroup.assign_repeated_uint32.
  intros Hbuild.
  destruct (forallb ButtonGroup.is_uint32 default_values) eqn:Hrange;
    simpl in Hbuild; [| discriminate].
  apply RegistrationProperties.bind_Ok in Hbuild.
  destruct Hbuild as (options & Hext & Hbuild).
  injection Hbuild as <-. simpl.
  destruct (options_extend_Ok _ _ _ Hext) as (added & -> & ->).
  split; [now apply assign_repeated_uint32_range | now split].
Qed.

(** X16: [_build_proto] returns exactly when every default index fits the
    message's field, 0 <= n < 2^32, and every formatted option is a
    [ButtonGroupProto.Option]; the message then carries these options in
    their order and every argument in its field, with no override: an empty
    [value] and [set_value] false.  A default index outside the range makes
    it raise [ValueError], whatever the formatted options are: the default
    is assigned before the options are appended. *)
Theorem _build_proto_fields
    (widget_id : string) (formatted_options : list formatted)
    (default_values : list Z) (disabled : bool) (current_form_id : string)
    (click_mode : ButtonGroupProto.ClickMode)
    (selection_visualization : ButtonGroupProto.SelectionVisualization)
    (proto : ButtonGroupProto.t) :
  (ButtonGroup._build_proto widget_id formatted_options default_values
     disabled current_form_id click_mode selection_visualization = Ok proto
   <-> Forall (fun n => 0 <= n < 4294967296) default_values
       /\ formatted_options = map FOption (ButtonGroupProto.options proto)
       /\ proto
          = {| ButtonGroupProto.id := widget_id;
               ButtonGroupProto.default := default_values;
               ButtonGroupProto.form_id := current_form_id;
               ButtonGroupProto.disabled := disabled;
               ButtonGroupProto.click_mode := click_mode;
               ButtonGroupProto.options := ButtonGroupProto.options proto;
               ButtonGroupProto.selection_visualization :=
                 selection_visualization;
               ButtonGroupProto.value := [];
               ButtonGroupProto.set_value := false |})
  /\ (~ Forall (fun n => 0 <= n < 4294967296) default_values ->
      ButtonGroup._build_proto widget_id formatted_options default_values
        disabled current_form_id click_mode selection_visualization
      = Raise ValueError).
Proof.
  split; [split |].
  - apply _build_proto_message.
  - intros (Hrange & -> & Hproto).
    unfold ButtonGroup._build_proto, ButtonGroup.assign_repeated_uint32.
    apply assign_repeated_uint32_range in Hrange. rewrite Hrange. simpl.
    rewrite options_extend_all. simpl.
    now rewrite Hproto at 2.
  - intros Hrange.
    unfold ButtonGroup._build_proto, ButtonGroup.assign_repeated_uint32.
    destruct (forallb ButtonGroup.is_uint32 default_values) eqn:Hall;
      [| reflexivity].
    exfalso. now apply Hrange, assign_repeated_uint32_range.
Qed.

Section ButtonGroupCall.
Context `{F : Framework}.
Variables (self : DeltaGenerator) (options : pyobj) (key : option pyobj)
          (default : pyobj) (click_mode : ButtonGroupProto.ClickMode)
          (disabled : bool)
          (format_func : option (pyobj -> result formatted))
          (deserializer : option WidgetDeserializer)
          (serializer : option WidgetSerializer)
          (on_change : option WidgetCallback)
          (args : option WidgetArgs) (kwargs : option WidgetKwargs)
          (selection_visualization : ButtonGroupProto.SelectionVisualization)
          (ctx : option ScriptRunContext).

(** X17: the message of a button group that was registered describes the
    widget as it was called: its options are the formatted options, its
    default the default indices, and the disabled flag, the click mode, the
    selection visualization and the form are those of the call.  Writing
    the override changes none of them. *)
Theorem button_group_message_fields
    (out : Outcome RegisterWidgetResult.t ButtonGroupProto.t
             DeltaGenerator ScriptRunContext) :
  ButtonGroup._button_group self options key default click_mode disabled
    format_func deserializer serializer on_change args kwargs
    selection_visualization ctx = Ok out ->
  exists (indexable_options : list pyobj) (default_values : list Z),
    transform_options options default format_func
    = Ok (indexable_options,
          map FOption (ButtonGroupProto.options (message out)),
          default_values)
    /\ ButtonGroupProto.default (message out) = default_values
    /\ ButtonGroupProto.disabled (message out) = disabled
    /\ ButtonGroupProto.click_mode (message out) = click_mode
    /\ ButtonGroupProto.selection_visualization (message out)
       = selection_visualization
    /\ ButtonGroupProto.form_id (message out) = current_form_id self.
Proof.
  intros Hrun.
  destruct (RegistrationProperties._button_group_Ok
              _ _ _ _ _ _ _ _ _ _ _ _ _ _ _ Hrun)
    as (io & fo & dv & proto & ws & Htr & Hbuild & _ & _ & _ & Hmsg).
  apply _build_proto_message in Hbuild. destruct Hbuild as (_ & Hfo & Hproto).
  assert (Hfields :
    ButtonGroupProto.options (message out) = ButtonGroupProto.options proto
    /\ ButtonGroupProto.default (message out) = ButtonGroupProto.default proto
    /\ ButtonGroupProto.disabled (message out) = ButtonGroupProto.disabled proto
    /\ ButtonGroupProto.click_mode (message out)
       = ButtonGroupProto.click_mode proto
    /\ ButtonGroupProto.selection_visualization (message out)
       = ButtonGroupProto.selection_visualization proto
    /\ ButtonGroupProto.form_id (message out) = ButtonGroupProto.form_id proto).
  { destruct (RegisterWidgetResult.value_changed (returned out)).
    - destruct Hmsg as (value & _ & ->). simpl. auto 6.
    - rewrite Hmsg. auto 6. }
  destruct Hfields as (Ho & Hd & Hdis & Hcm & Hsv & Hform).
  exists io, dv. rewrite Ho, Hd, Hdis, Hcm, Hsv, Hform, <- Hfo.
  rewrite Hproto. simpl. auto 6.
Qed.

End ButtonGroupCall.

Section Feedback.
Context `{F : Framework}.
Variables (self : DeltaGenerator) (options : pyobj) (key : option string)
          (disabled : bool) (on_change : option WidgetCallback)
          (args : option WidgetArgs) (kwargs : option WidgetKwargs)
          (ctx : option ScriptRunContext).

(** X18: a feedback widget is a single-select button group: its message
    has the click mode SINGLE_SELECT and the disabled flag of the call, and
    decorates all options up to the selected one exactly when the options
    are "stars". *)
Theorem feedback_message_fields
    (out : Outcome pyobj ButtonGroupProto.t DeltaGenerator ScriptRunContext) :
  ButtonGroup.feedback self options key disabled on_change args kwargs ctx
  = Ok out ->
  ButtonGroupProto.click_mode (message out) = ButtonGroupProto.SINGLE_SELECT
  /\ ButtonGroupProto.disabled (message out) = disabled
  /\ ButtonGroupProto.selection_visualization (message out)
     = (if py_eq options (VStr "stars")
        then ButtonGroupProto.ALL_UP_TO_SELECTED
        else ButtonGroupProto.ONLY_SELECTED)
  /\ ButtonGroupProto.form_id (message out) = current_form_id self.
Proof.
  unfold ButtonGroup.feedback, ButtonGroup.feedback_widget. intros Hrun.
  apply RegistrationProperties.bind_Ok in Hrun.
  destruct Hrun as (u & _ & Hrun).
  apply RegistrationProperties.bind_Ok in Hrun.
  destruct Hrun as ([transformed_options options_indices] & _ & Hrun).
  apply RegistrationProperties.bind_Ok in Hrun.
  destruct Hrun as (sentiment & Hgroup & Hrun).
  injection Hrun as <-. simpl.
  destruct (button_group_message_fields _ _ _ _ _ _ _ _ _ _ _ _ _ _ _ Hgroup)
    as (io & dv & _ & _ & Hdis & Hcm & Hsv & Hform).
  auto.
Qed.

End Feedback.

Lemma button_group_message_fields_witness :
  exists out,
    Demo.button_group
      (Demo.framework (Demo.session_write (VList [VInt 3])) Demo.no_coercion)
      [] None (VList Demo.one_to_three) (VList [VInt 2])
      ButtonGroupProto.MULTI_SELECT = Ok out
    /\ ButtonGroupProto.value (message out) = [2]
    /\ exists (indexable_options : list pyobj) (default_values : list Z),
         transform_options
           (F := Demo.framework (Demo.session_write (VList [VInt 3]))
                   Demo.no_coercion)
           (VList Demo.one_to_three) (VList [VInt 2]) (Some Demo.as_option)
         = Ok (indexable_options,
               map FOption (ButtonGroupProto.options (message out)),
               default_values)
         /\ ButtonGroupProto.default (message out) = default_values
         /\ ButtonGroupProto.disabled (message out) = false
         /\ ButtonGroupProto.click_mode (message out)
            = ButtonGroupProto.MULTI_SELECT
         /\ ButtonGroupProto.selection_visualization (message out)
            = ButtonGroupProto.ONLY_SELECTED
         /\ ButtonGroupProto.form_id (message out) = "".
Proof.
  eexists. split; [reflexivity |]. split; [reflexivity |].
  refine (button_group_message_fields
            (F := Demo.framework (Demo.session_write (VList [VInt 3]))
                    Demo.no_coercion)
            [] (VList Demo.one_to_three) None (VList [VInt 2])
            ButtonGroupProto.MULTI_SELECT false (Some Demo.as_option)
            None None None None None ButtonGroupProto.ONLY_SELECTED None _ _).
  reflexivity.
Defined.

Lemma feedback_message_fields_witness :
  exists out,
    ButtonGroup.feedback
      (F := Demo.framework Demo.first_run Demo.no_coercion)
      [] (VStr "stars") None true None None None None = Ok out
    /\ ButtonGroupProto.click_mode (message out) = ButtonGroupProto.SINGLE_SELECT
    /\ ButtonGroupProto.disabled (message out) = true
    /\ ButtonGroupProto.selection_visualization (message out)
       = ButtonGroupProto.ALL_UP_TO_SELECTED
    /\ ButtonGroupProto.form_id (message out) = "".
Proof.
  eexists. split; [reflexivity |].
  refine (feedback_message_fields
            (F := Demo.framework Demo.first_run Demo.no_coercion)
            [] (VStr "stars") None true None None None None _ _).
  reflexivity.
Defined.

End ButtonGroupExtras.

(** ** More on page navigation *)

Module PagesExtras.
Import Py Pages.

Lemma dict_get_set_same {V : Type} (d : dict V) (k : string) (v : V) :
  dict_get (dict_set d k v) k = Some v.
Proof.
  induction d as [|[k0 v0] d IH]; simpl.
  - now rewrite String.eqb_refl.
  - destruct (String.eqb_spec k0 k) as [-> | Hneq]; simpl.
    + now rewrite String.eqb_refl.
    + destruct (String.eqb_spec k0 k); [contradiction | exact IH].
Qed.

Lemma dict_get_set_other {V : Type} (d : dict V) (k k' : string) (v : V) :
  k <> k' -> dict_get (dict_set d k v) k' = dict_get d k'.
Proof.
  intros Hneq. induction d as [|[k0 v0] d IH]; simpl.
  - destruct (String.eqb_spec k k'); [contradiction | reflexivity].
  - destruct (String.eqb_spec k0 k) as [-> | Hk0]; simpl.
    + destruct (String.eqb_spec k k'); [contradiction | reflexivity].
    + destruct (String.eqb_spec k0 k'); [reflexivity | exact IH].
Qed.

Lemma dict_set_keys {V : Type} (d : dict V) (k k' : string) (v : V) :
  In k' (map fst (dict_set d k v)) <-> k' = k \/ In k' (map fst d).
Proof.
  induction d as [|[k0 v0] d IH]; simpl.
  - intuition.
  - destruct (String.eqb_spec k0 k) as [-> | Hneq]; simpl.
    + intuition.
    + rewrite IH. intuition.
Qed.

Lemma dict_set_NoDup {V : Type} (d : dict V) (k : string) (v : V) :
  NoDup (map fst d) -> NoDup (map fst (dict_set d k v)).
Proof.
  induction d as [|[k0 v0] d IH]; simpl; intros Hd.
  - constructor; [intros [] | constructor].
  - inversion Hd as [|? ? Hk0 Hd']; subst.
    destruct (String.eqb_spec k0 k) as [-> | Hneq]; simpl.
    + now constructor.
    + constructor; [| now apply IH].
      rewrite dict_set_keys. intros [-> | Hin]; [congruence | contradiction].
Qed.

Lemma find_append {A : Type} (f : A -> bool) (l1 l2 : list A) :
  find f (l1 ++ l2)%list
  = match find f l1 with
    | Some x => Some x
    | None => find f l2
    end.
Proof.
  induction l1 as [|a l1 IH]; simpl; [reflexivity |].
  now destruct (f a).
Qed.

Lemma find_first {A : Type} (f : A -> bool) (l : list A) (x : A) :
  find f l = Some x ->
  exists l1 l2,
    l = (l1 ++ x :: l2)%list /\ f x = true
    /\ forall q, In q l1 -> f q = false.
Proof.
  induction l as [|a l IH]; simpl; [discriminate |].
  destruct (f a) eqn:Ha; intros Hfind.
  - injection Hfind as <-. exists [], l. repeat split; [exact Ha | intros q []].
  - destruct (IH Hfind) as (l1 & l2 & -> & Hx & Hl1).
    exists (a :: l1), l2. repeat split; [exact Hx |].
    intros q [<- | Hq]; [exact Ha | now apply Hl1].
Qed.

Section Table.
Variable calc_md5 : string -> string.

Let hash (page : Page) : string := _script_hash calc_md5 page.

Let step (page_dict : dict Page) (page : Page) : dict Page :=
  dict_set page_dict (hash page) page.

(** What the page table holds under [k] once [pages] are stored: the last
    of them with the hash [k], or what it held before. *)
Lemma fold_get (pages : list Page) (page_dict : dict Page) (k : string) :
  dict_get (fold_left step pages page_dict) k
  = match find (fun p => String.eqb (hash p) k) (rev pages) with
    | Some p => Some p
    | None => dict_get page_dict k
    end.
Proof.
  revert page_dict. induction pages as [|p pages IH]; intros d; simpl.
  - reflexivity.
  - rewrite IH. rewrite find_append.
    destruct (find (fun p0 => String.eqb (hash p0) k) (rev pages)); [reflexivity |].
    simpl. unfold step.
    destruct (String.eqb_spec (hash p) k) as [<- | Hneq].
    + apply dict_get_set_same.
    + now apply dict_get_set_other.
Qed.

Lemma fold_NoDup (pages : list Page) (page_dict : dict Page) :
  NoDup (map fst page_dict) ->
  NoDup (map fst (fold_left step pages page_dict)).
Proof.
  revert page_dict. induction pages as [|p pages IH]; intros d Hd; simpl.
  - exact Hd.
  - apply IH. now apply dict_set_NoDup.
Qed.

Lemma stored_items (pages : list Page) (page_dict : dict Page) (Q : Page -> Prop) :
  Forall (fun item => fst item = hash (snd item) /\ Q (snd item)) page_dict ->
  Forall Q pages ->
  Forall (fun item => fst item = hash (snd item) /\ Q (snd item))
         (fold_left step pages page_dict).
Proof.
  revert page_dict. induction pages as [|p pages IH]; intros d Hd Hpages; simpl.
  - exact Hd.
  - inversion Hpages as [|? ? Hp Hrest]; subst. apply IH; [| exact Hrest].
    apply PagesProperties.dict_set_Forall.
    + exact Hd.
    + now split.
    + intros k0 v0 _ ->. now split.
Qed.

(** X19: the page table [navigation] builds is a table: it holds every
    hash once, each page is kept under its own hash and is a page of the
    navigation, and looking up the hash of any page of the navigation finds
    the last page with that hash. *)
Theorem page_table_is_keyed_by_hash (pages : dict (list Page)) :
  let page_dict := build_page_dict calc_md5 pages in
  NoDup (map fst page_dict)
  /\ (forall k page, In (k, page) page_dict ->
                     k = hash page /\ In page (all_pages pages))
  /\ (forall p, In p (all_pages pages) ->
        exists page before after,
          dict_get page_dict (hash p) = Some page
          /\ all_pages pages = (before ++ page :: after)%list
          /\ hash page = hash p
          /\ forall q, In q after -> hash q <> hash p).
Proof.
  intros page_dict. unfold page_dict, build_page_dict. fold hash. fold step.
  split; [| split].
  - apply fold_NoDup. constructor.
  - intros k page Hin.
    assert (Hitems :=
      stored_items (all_pages pages) [] (fun q => In q (all_pages pages))
        (Forall_nil _) (proj2 (Forall_forall _ _) (fun q Hq => Hq))).
    rewrite Forall_forall in Hitems. exact (Hitems (k, page) Hin).
  - intros p Hp. rewrite fold_get.
    destruct (find (fun p0 => String.eqb (hash p0) (hash p))
                (rev (all_pages pages))) as [page|] eqn:Hfind.
    + destruct (find_first _ _ _ Hfind) as (l1 & l2 & Hrev & Hpage & Hl1).
      exists page, (rev l2), (rev l1). split; [reflexivity |].
      split; [| split].
      * rewrite <- (rev_involutive (all_pages pages)), Hrev.
        rewrite rev_app_distr. simpl. now rewrite <- app_assoc.
      * now apply String.eqb_eq.
      * intros q Hq. apply in_rev in Hq. apply String.eqb_neq. now apply Hl1.
    + exfalso. apply in_rev in Hp.
      pose proof (find_none _ _ Hfind p Hp) as Hnone. simpl in Hnone.
      now rewrite String.eqb_refl in Hnone.
Qed.

(** X20: when a page of the navigation has the hash of the current page,
    [navigation] returns the last such page and prints nothing. *)
Theorem navigation_finds_current_page
    (pages : pages_arg) (position : position_arg)
    (ctx : ScriptRunContext) (out : list string) (p : Page) :
  let table :=
    match pages with
    | PagesList pages => [("", pages)]
    | PagesDict pages => pages
    end in
  In p (all_pages table) ->
  hash p = ctx_page_script_hash ctx ->
  exists (page : Page) (world : World) (before after : list Page),
    navigation calc_md5 pages position (Some ctx) out = Ok (page, world)
    /\ stdout world = out
    /\ hash page = ctx_page_script_hash ctx
    /\ all_pages table = (before ++ page :: after)%list
    /\ forall q, In q after -> hash q <> ctx_page_script_hash ctx.
Proof.
  intros table Hp Hhash.
  destruct (proj2 (proj2 (page_table_is_keyed_by_hash table)) p Hp)
    as (page & before & after & Hget & Hall & Hpage & Hafter).
  exists page. eexists. exists before, after.
  unfold navigation. cbv zeta. simpl ctx_page_script_hash.
  match goal with
  | |- context [build_page_dict _ ?t] => change t with table
  end.
  fold hash in Hget. rewrite <- Hhash, Hget.
  split; [reflexivity |]. simpl.
  split; [reflexivity |]. split; [exact Hpage |]. split; [exact Hall |].
  exact Hafter.
Qed.

(** X21: what [navigation] leaves in the script context when it returns:
    the current page hash is untouched, the page table is replaced by the
    one built from the navigation, and one message is enqueued after those
    already there, with one section per section of the navigation under its
    header and, over all sections, one entry per page in order, pages with
    equal hashes included. *)
Theorem navigation_updates_context
    (pages : pages_arg) (position : position_arg)
    (ctx : ScriptRunContext) (out : list string)
    (page : Page) (world : World) :
  let table :=
    match pages with
    | PagesList pages => [("", pages)]
    | PagesDict pages => pages
    end in
  navigation calc_md5 pages position (Some ctx) out = Ok (page, world) ->
  ctx_page_script_hash (Pages.ctx world) = ctx_page_script_hash ctx
  /\ ctx_pages (Pages.ctx world) = build_page_dict calc_md5 table
  /\ exists msg,
       ctx_enqueued (Pages.ctx world) = (ctx_enqueued ctx ++ [msg])%list
       /\ map header (sections msg) = map fst table
       /\ flat_map (fun section => map page_script_hash (app_pages section))
                   (sections msg)
          = map hash (all_pages table).
Proof.
  intros table. unfold navigation. cbv zeta. simpl ctx_page_script_hash.
  match goal with
  | |- context [build_page_dict _ ?t] => change t with table
  end.
  clearbody table.
  assert (Hmsg :
    map header
      (map (fun section : string * list Page =>
              {| header := fst section;
                 app_pages := map (app_page_of calc_md5) (snd section) |})
           table) = map fst table
    /\ flat_map (fun section => map page_script_hash (app_pages section))
         (map (fun section : string * list Page =>
                 {| header := fst section;
                    app_pages := map (app_page_of calc_md5) (snd section) |})
              table)
       = map hash (all_pages table)).
  { unfold all_pages. induction table as [|[h ps] table (IH1 & IH2)]; simpl.
    - now split.
    - rewrite IH1, IH2, map_app, map_map. now split. }
  destruct (dict_get (build_page_dict calc_md5 table) (ctx_page_script_hash ctx)).
  - intros Hrun. injection Hrun as <- <-. simpl. eauto.
  - destruct (dict_values (build_page_dict calc_md5 table)); [discriminate |].
    intros Hrun. injection Hrun as <- <-. simpl. eauto.
Qed.

End Table.

Section Init.
Variable resolve_beside : string -> string -> string.
Variable page_icon_and_name : string -> string * string.

(** X22: a page that was constructed has a title that is not empty: the
    title given, when one is given, and otherwise the name inferred from
    the script path or the [__name__] of the callable; its icon is set,
    possibly to the empty string, and a page given as a string or a path
    is kept as the path resolved beside the main script. *)
Theorem constructed_page_has_a_title
    (ctx : PageInit.InitContext) (page : PageInit.page_arg)
    (title icon : option string) (default : bool) (key : option string)
    (p : Page) :
  PageInit.Page_init resolve_beside page_icon_and_name (Some ctx) page title
    icon default key = Ok p ->
  (exists t, Pages.title p = Some t /\ t <> ""
             /\ (forall given, title = Some given -> given <> "" -> t = given)
             /\ (forall name repr,
                   page = PageInit.OfCallable name repr ->
                   PageInit.or_else title "" = "" ->
                   t = name /\ Pages.page p = PageCallable repr))
  /\ (exists i, Pages.icon p = Some i)
  /\ (forall s, page = PageInit.OfStr s \/ page = PageInit.OfPath s ->
        Pages.page p
        = PagePath (resolve_beside (PageInit.main_script_path ctx) s))
  /\ Pages.default p = default
  /\ Pages.key p = key.
Proof.
  unfold PageInit.Page_init. cbv zeta.
  assert (Htitle : forall inferred_name given,
            title = Some given -> given <> "" ->
            PageInit.or_else title inferred_name = given).
  { intros inferred_name given -> Hgiven. simpl.
    now destruct (String.eqb_spec given ""). }
  assert (Hnone : forall inferred_name,
            PageInit.or_else title "" = "" ->
            PageInit.or_else title inferred_name = inferred_name).
  { intros inferred_name. destruct title as [t|]; simpl; [| reflexivity].
    destruct (String.eqb_spec t ""); [reflexivity | contradiction]. }
  destruct page as [s | s | name repr]; simpl;
    try destruct (page_icon_and_name
                    (resolve_beside (PageInit.main_script_path ctx) s))
      as [inferred_icon inferred_name];
    match goal with
    | |- (if String.eqb ?t "" then _ else _) = _ -> _ =>
        destruct (String.eqb_spec t "") as [Hempty | Hname];
        [discriminate |]
    end;
    intros Hp; injection Hp as <-; simpl;
    (split; [| split; [eauto | split; [| now split]]]).
  - eexists. split; [reflexivity |]. split; [exact Hname |].
    split; [intros given Hg Hne; now apply Htitle | discriminate].
  - intros s' [Heq | Heq]; try discriminate; now injection Heq as <-.
  - eexists. split; [reflexivity |]. split; [exact Hname |].
    split; [intros given Hg Hne; now apply Htitle | discriminate].
  - intros s' [Heq | Heq]; try discriminate; now injection Heq as <-.
  - eexists. split; [reflexivity |]. split; [exact Hname |].
    split; [intros given Hg Hne; now apply Htitle |].
    intros name' repr' Heq Hno. injection Heq as <- <-.
    split; [now apply Hnone | reflexivity].
  - intros s' [Heq | Heq]; discriminate.
Qed.

End Init.

Lemma navigation_finds_current_page_witness :
  exists (page : Page) (world : World) (before after : list Page),
    navigation (fun s => s)
      (PagesDict [("", [Demo.home]); ("more", [Demo.about; Demo.home])])
      hidden
      (Some {| ctx_page_script_hash := "/app/home.py";
               ctx_pages := [];
               ctx_enqueued := [] |}) ["earlier"]
    = Ok (page, world)
    /\ stdout world = ["earlier"]
    /\ _script_hash (fun s => s) page = "/app/home.py"
    /\ [Demo.home; Demo.about; Demo.home] = (before ++ page :: after)%list
    /\ forall q, In q after -> _script_hash (fun s => s) q <> "/app/home.py".
Proof.
  apply (navigation_finds_current_page (fun s => s)
           (PagesDict [("", [Demo.home]); ("more", [Demo.about; Demo.home])])
           hidden
           {| ctx_page_script_hash := "/app/home.py";
              ctx_pages := [];
              ctx_enqueued := [] |} ["earlier"] Demo.home).
  - now left.
  - reflexivity.
Defined.

Lemma navigation_updates_context_witness :
  exists page world,
    navigation (fun s => s) (PagesList [Demo.home; Demo.about]) sidebar
      (Some Demo.on_settings) [] = Ok (page, world)
    /\ ctx_page_script_hash (Pages.ctx world) = "/app/settings.py"
    /\ ctx_pages (Pages.ctx world)
       = build_page_dict (fun s => s) [("", [Demo.home; Demo.about])]
    /\ exists msg,
         ctx_enqueued (Pages.ctx world) = [msg]
         /\ map header (sections msg) = [""]
         /\ flat_map (fun section => map page_script_hash (app_pages section))
                     (sections msg)
            = ["/app/home.py"; "/app/about.py"].
Proof.
  eexists. eexists. split; [reflexivity |].
  refine (navigation_updates_context (fun s => s)
            (PagesList [Demo.home; Demo.about]) sidebar Demo.on_settings []
            _ _ _).
  reflexivity.
Defined.

Lemma constructed_page_has_a_title_witness :
  exists p,
    PageInit.Page_init (fun main page => main ++ "/" ++ page)
      (fun path => ("", path))
      (Some {| PageInit.main_script_path := "/app" |})
      (PageInit.OfCallable "settings" "<function settings>")
      None (Some ":gear:") false None = Ok p
    /\ Pages.title p = Some "settings"
    /\ Pages.icon p = Some ":gear:"
    /\ Pages.page p = PageCallable "<function settings>".
Proof.
  eexists. split; [reflexivity |].
  destruct (constructed_page_has_a_title
              (fun main page => main ++ "/" ++ page) (fun path => ("", path))
              {| PageInit.main_script_path := "/app" |}
              (PageInit.OfCallable "settings" "<function settings>")
              None (Some ":gear:") false None _ eq_refl)
    as ((t & Ht & _ & _ & Hcallable) & _).
  destruct (Hcallable "settings" "<function settings>" eq_refl eq_refl)
    as (-> & Hpage).
  split; [exact Ht |]. split; [reflexivity | exact Hpage].
Defined.

End PagesExtras.
